(** * CuboClient: a shallow embedding of [cuboClient.ts]

    The client posts a card payment to [<url>/api/v1/transactions], converts
    a dollar amount into cents and normalises the answer of the API.

    - [Number]: JavaScript numbers are IEEE-754 binary64 values; they are
      embedded as the [spec_float] of the Standard Library with its
      round-to-nearest-even multiplication, and the three built-ins the client
      uses ([%], [Math.round], [Number.isFinite]) are written out on that
      representation.
    - [value]: JSON-like data (what [JSON.parse] and the HTTP client hand
      back) is a tree; a payment object passed by the caller lives in a heap
      cell so that aliasing between the caller and [pay] is visible.
    - [M]: the client's methods run in a state-and-exception monad over the
      heap and a trace of observable events (console output, calls of
      [axios.post], pauses). *)

From Stdlib Require Import ZArith QArith Qabs Qpower Qfield Lia String Ascii SpecFloat DecimalString.
From stdpp Require Import base option list gmap strings.

Local Open Scope Z_scope.

(** ** JavaScript numbers *)

Module Number.

Definition prec : Z := 53.
Definition emax : Z := 1024.

Definition number := spec_float.

(** [x * y] on numbers. *)
Definition mul (x y : number) : number := SFmul prec emax x y.

(** The number [s * m * 2^e], [m] having at most [prec] bits, in the
    canonical form of a binary64 (mantissa shifted left as far as the
    exponent range allows).  No rounding takes place. *)
Definition exact (s : bool) (m : Z) (e : Z) : number :=
  match m with
  | Zpos p =>
      let '(p', e') := shl_align p e (fexp prec emax (Zpos (digits2_pos p) + e)) in
      S754_finite s p' e'
  | _ => S754_zero s
  end.

(** The literals of the source. *)
Definition zero : number := S754_zero false.
Definition one : number := exact false 1 0.
Definition hundred : number := exact false 100 0.

(** [Number.isFinite(x)] *)
Definition isFinite (x : number) : bool :=
  match x with
  | S754_zero _ | S754_finite _ _ _ => true
  | S754_infinity _ | S754_nan => false
  end.

(** [x === y] on numbers: [NaN] differs from everything, [-0] equals [+0]. *)
Definition strict_eq (x y : number) : bool := SFeqb x y.

(** [x % y]: the remainder of the truncating division, computed without
    rounding; it has the sign of the dividend. *)
Definition rem (x y : number) : number :=
  match x, y with
  | S754_nan, _ | _, S754_nan => S754_nan
  | S754_infinity _, _ => S754_nan
  | _, S754_zero _ => S754_nan
  | _, S754_infinity _ => x
  | S754_zero _, _ => x
  | S754_finite sx mx ex, S754_finite _ my ey =>
      let ez := Z.min ex ey in
      exact sx (Zpos (fst (shl_align mx ex ez)) mod Zpos (fst (shl_align my ey ez))) ez
  end.

(** [Math.round(x)]: [x] itself when it is not finite or already integral,
    otherwise [floor(x + 1/2)] (ties go towards +infinity), with the sign of
    [x] kept on a zero result. *)
Definition round (x : number) : number :=
  match x with
  | S754_finite s m e =>
      if 0 <=? e then x
      else
        let n := (cond_Zopp s (Zpos m) + 2 ^ (- e - 1)) / 2 ^ (- e) in
        exact (if n =? 0 then s else n <? 0) (Z.abs n) 0
  | _ => x
  end.

(** [m * 2^e] as a rational. *)
Definition dyadic (m e : Z) : Q := (inject_Z m * 2 ^ e)%Q.

(** The rational a finite number stands for (0 for the others). *)
Definition toQ (x : number) : Q :=
  match x with
  | S754_finite s m e => (inject_Z (cond_Zopp s (Zpos m)) * 2 ^ e)%Q
  | _ => 0%Q
  end.

(** A finite number without fractional part. *)
Definition integral (x : number) : Prop :=
  isFinite x = true /\ exists n : Z, (toQ x == inject_Z n)%Q.

End Number.

Abbreviation number := Number.number.

(** ** JavaScript values *)

(** Data as [JSON.parse] and the HTTP client produce it.  Objects are finite
    maps from property names to values. *)
#[local] Unset Elimination Schemes.
Inductive value :=
| VUndefined
| VNull
| VBool (b : bool)
| VNumber (x : number)
| VString (s : string)
| VArray (xs : list value)
| VObject (fields : gmap string value).
#[local] Set Elimination Schemes.

(** What can be thrown: a [TypeError] of the runtime, or the error with which
    [axios.post] rejects ([response] is set when the server answered,
    [request] when the request was made). *)
Inductive exn :=
| TypeError (message : string)
| AxiosError (message : string) (response : option (N * value)) (request : bool).

Definition exn_message (e : exn) : string :=
  match e with
  | TypeError message => message
  | AxiosError message _ _ => message
  end.

Inductive outcome (A : Type) :=
| Returned (a : A)
| Thrown (e : exn).
Arguments Returned {A} a.
Arguments Thrown {A} e.

#[export] Instance outcome_ret : MRet outcome := fun A a => Returned a.
#[export] Instance outcome_bind : MBind outcome := fun A B f o =>
  match o with
  | Returned a => f a
  | Thrown e => Thrown e
  end.

(** [if (v)]: the truth value of [v]. *)
Definition truthy (v : value) : bool :=
  match v with
  | VUndefined | VNull => false
  | VBool b => b
  | VNumber (S754_zero _) | VNumber S754_nan => false
  | VNumber _ => true
  | VString s => negb (String.eqb s EmptyString)
  | VArray _ | VObject _ => true
  end.

(** [v === s] for a string literal [s]. *)
Definition strict_eq_string (v : value) (s : string) : bool :=
  match v with
  | VString t => String.eqb t s
  | _ => false
  end.

(** [o.k] on the fields of an object: [undefined] when [k] is missing. *)
Definition get_own (fields : gmap string value) (k : string) : value :=
  default VUndefined (fields !! k).

(** [v.k] for the property names the client reads ([error], [status],
    [message], [amount], ...): none of them is a built-in property of
    strings, numbers, booleans or arrays, so only objects can have them.
    Reading a property of [null] or [undefined] throws, with the message of
    Node's runtime. *)
Definition get_prop (v : value) (k : string) : outcome value :=
  match v with
  | VUndefined =>
      Thrown (TypeError ("Cannot read properties of undefined (reading '" +:+ k +:+ "')"))
  | VNull =>
      Thrown (TypeError ("Cannot read properties of null (reading '" +:+ k +:+ "')"))
  | VObject fields => Returned (get_own fields k)
  | _ => Returned VUndefined
  end.

(** [`${n}`] for a non-negative integer. *)
Definition string_of_N (n : N) : string := NilZero.string_of_uint (N.to_uint n).

(** ** State, events and the environment *)

Definition loc := positive.

Record request := {
  endpoint : string;
  body : value;
  request_headers : gmap string string
}.

Inductive event :=
| ConsoleLog (args : list value)
| AxiosPost (r : request)
| SetTimeout (ms : Z).

(** The heap holds the payment objects that are passed by reference; the
    trace lists the events in the order they happened. *)
Record state := {
  heap : gmap loc (gmap string value);
  trace : list event
}.

(** The requests made so far. *)
Definition requests (t : list event) : list request :=
  omap (fun ev => match ev with AxiosPost r => Some r | _ => None end) t.

(** What happens to a request on the wire. *)
Inductive transport :=
| Response (status : N) (data : value)
| NoResponse (message : string)
| NotSent (message : string).

(** What the client takes from outside: the JSON codec of the runtime
    ([JSON_parse] is [None] where [JSON.parse] throws a [SyntaxError];
    [JSON_stringify v] is [JSON.stringify(v, null, 2)]) and the network, which
    answers a request knowing the earlier ones. *)
Record environment := {
  JSON_parse : string -> option value;
  JSON_stringify : value -> string;
  network : list request -> request -> transport
}.

Definition M (A : Type) : Type := state -> outcome A * state.

#[export] Instance M_ret : MRet M := fun A a σ => (Returned a, σ).
#[export] Instance M_bind : MBind M := fun A B f m σ =>
  match m σ with
  | (Returned a, σ') => f a σ'
  | (Thrown e, σ') => (Thrown e, σ')
  end.

Definition lift_outcome {A} (o : outcome A) : M A := fun σ => (o, σ).

(** [try { m } catch (error) { h error }] *)
Definition try_catch {A} (m : M A) (h : exn -> M A) : M A := fun σ =>
  match m σ with
  | (Thrown e, σ') => h e σ'
  | r => r
  end.

Definition emit (ev : event) : M unit := fun σ =>
  (Returned (), {| heap := heap σ; trace := trace σ ++ [ev] |}).

Definition console_log (args : list value) : M unit := emit (ConsoleLog args).

(** A new object, at an address not in use. *)
Definition alloc (o : gmap string value) : M loc := fun σ =>
  let l := fresh (dom (heap σ)) in
  (Returned l, {| heap := <[l := o]> (heap σ); trace := trace σ |}).

(** The fields of the object at [l] (a reference always points to an
    object; the empty object stands in for an address not in use). *)
Definition load (l : loc) : M (gmap string value) := fun σ =>
  (Returned (default ∅ (heap σ !! l)), σ).

(** [l.k = v] *)
Definition store (l : loc) (k : string) (v : value) : M unit := fun σ =>
  (Returned (), {| heap := alter (insert k v) l (heap σ); trace := trace σ |}).

(** ** The client *)

(** [class CuboClient]: its three private fields. *)
Record CuboClient := {
  apiKey : string;
  url : string;
  headers : gmap string string
}.

(** [constructor(apiKey, url = "https://api.cubo.com")] *)
Definition new_CuboClient (apiKey : string) (url : option string) : CuboClient :=
  {| apiKey := apiKey;
     url := default "https://api.cubo.com" url;
     headers := {[ "X-API-KEY" := apiKey; "Content-Type" := "application/json" ]} |}.

(** [convertCentv(amount)]: [Math.round(amount * 100)]. *)
Definition convertCentv (amount : number) : number :=
  Number.round (Number.mul amount Number.hundred).

(** Lines 95-100 of [pay], as a function of the [amount] read from the
    payload: the value to assign to it, if any.  Only a finite number with
    [amount % 1 !== 0] is converted. *)
Definition converted_amount (amount : value) : option value :=
  match amount with
  | VNumber a =>
      if Number.isFinite a then
        if negb (Number.strict_eq (Number.rem a Number.one) Number.zero)
        then Some (VNumber (convertCentv a))
        else None
      else None
  | _ => None
  end.

(** The amount once lines 95-100 have run. *)
Definition detected_amount (amount : value) : value :=
  default amount (converted_amount amount).

(** [handleResponse(response)] *)
Definition handleResponse (response : value) : outcome value :=
  error ← get_prop response "error";
  if truthy error then
    mret (VObject {[ "success" := VBool false; "message" := error ]})
  else
    status ← get_prop response "status";
    if strict_eq_string status "SUCCEEDED" then
      referenceId ← get_prop response "referenceId";
      authorizationCode ← get_prop response "authorizationCode";
      processedAt ← get_prop response "processedAt";
      mret (VObject {[ "success" := VBool true;
                       "reference_id" := referenceId;
                       "authorization_code" := authorizationCode;
                       "processed_at" := processedAt ]})
    else
      message ← get_prop response "message";
      mret (VObject {[ "success" := VBool false;
                       "message" := if truthy message then message
                                    else VString "Error desconocido" ]}).

(** The local variable [paymentData] of [pay]: a reference to an object of
    its own, or what [JSON.parse] gave when that is not an object. *)
Inductive payment_ref :=
| RObject (l : loc)
| RValue (v : value).

(** [paymentData.k] *)
Definition get_field (r : payment_ref) (k : string) : M value :=
  match r with
  | RObject l => o ← load l; mret (get_own o k)
  | RValue v => lift_outcome (get_prop v k)
  end.

(** [paymentData.k = v].  [pay] assigns only after it has read a number from
    [paymentData.amount], which a non-object never has; there the assignment
    of strict mode throws. *)
Definition set_field (r : payment_ref) (k : string) (v : value) : M unit :=
  match r with
  | RObject l => store l k v
  | RValue _ => fun σ => (Thrown (TypeError ("Cannot create property '" +:+ k +:+ "'")), σ)
  end.

(** The value [paymentData] denotes at the moment it is serialised. *)
Definition deref (r : payment_ref) : M value :=
  match r with
  | RObject l => o ← load l; mret (VObject o)
  | RValue v => mret v
  end.

Definition headers_value (h : gmap string string) : value := VObject (VString <$> h).

Definition error_object (message : string) : value :=
  VObject {[ "error" := VString message ]}.

(** [interface TestResult] *)
Module TestResult.
Record t := {
  url : string;
  response : option value;
  result : option value;
  error : option string
}.
End TestResult.

Definition newline : string := String "010"%char EmptyString.

Section Client.

Variable env : environment.

(** [axios.post(endpoint, body, { headers })] with axios's default
    [validateStatus]: it resolves with the response on a status in
    200..299 and rejects otherwise. *)
Definition axios_post (endpoint : string) (body : value) (headers : gmap string string)
  : M (N * value) := fun σ =>
  let r := {| endpoint := endpoint; body := body; request_headers := headers |} in
  let σ' := {| heap := heap σ; trace := trace σ ++ [AxiosPost r] |} in
  match network env (requests (trace σ)) r with
  | Response status data =>
      if ((200 <=? status) && (status <? 300))%N then (Returned (status, data), σ')
      else (Thrown (AxiosError ("Request failed with status code " +:+ string_of_N status)
                               (Some (status, data)) true), σ')
  | NoResponse message => (Thrown (AxiosError message None true), σ')
  | NotSent message => (Thrown (AxiosError message None false), σ')
  end.

(** Lines 94-137 of [pay]: what follows once [paymentData] is set. *)
Definition pay_send (this : CuboClient) (paymentData : payment_ref) : M value :=
  let endpoint := url this +:+ "/api/v1/transactions" in
  amount ← get_field paymentData "amount";
  match converted_amount amount with
  | Some cents => set_field paymentData "amount" cents
  | None => mret ()
  end;;
  try_catch
    (console_log [VString ("URL: " +:+ endpoint)];;
     console_log [VString "Headers:"; headers_value (headers this)];;
     body ← deref paymentData;
     console_log [VString "Datos:"; VString (JSON_stringify env body)];;
     response ← axios_post endpoint body (headers this);
     console_log [VString ("Código de estado: " +:+ string_of_N response.1)];;
     console_log [VString "Respuesta:"; response.2];;
     mret response.2)
    (fun error =>
       match error with
       | AxiosError _ (Some response) _ =>
           console_log [VString ("Código de estado: " +:+ string_of_N response.1)];;
           console_log [VString "Respuesta:"; response.2];;
           mret (VObject {[ "error" := VString ("Error del servidor: " +:+ string_of_N response.1);
                            "details" := response.2 ]})
       | AxiosError _ None true =>
           console_log [VString "Error: No se recibió respuesta"];;
           mret (error_object "No se recibió respuesta del servidor")
       | _ =>
           console_log [VString "Error:"; VString (exn_message error)];;
           mret (error_object ("Error de conexión: " +:+ exn_message error))
       end).

(** [pay(data)]: [data] is a reference to the caller's payment object or a
    string.  The caller's object is copied ([{ ...data }]); an object that
    [JSON.parse] returns is new as well. *)
Definition pay (this : CuboClient) (data : loc + string) : M value :=
  match data with
  | inr text =>
      match JSON_parse env text with
      | None => mret (error_object "Los datos proporcionados no son un JSON válido")
      | Some (VObject o) => paymentData ← alloc o; pay_send this (RObject paymentData)
      | Some v => pay_send this (RValue v)
      end
  | inl l =>
      o ← load l;
      paymentData ← alloc o;
      pay_send this (RObject paymentData)
  end.

(** The loop of [testMultipleUrls]: [results] is the array built so far. *)
Fixpoint testMultipleUrls_loop (this : CuboClient) (data : loc) (urls : list string)
    (results : list TestResult.t) : M (list TestResult.t) :=
  match urls with
  | [] => mret results
  | url :: urls =>
      console_log [VString (newline +:+ newline +:+ "Probando con URL base: " +:+ url)];;
      let client := new_CuboClient (apiKey this) (Some url) in
      results ←
        try_catch
          (response ← pay client (inl data);
           result ← lift_outcome (handleResponse response);
           let results :=
             results ++ [{| TestResult.url := url;
                            TestResult.response := Some response;
                            TestResult.result := Some result;
                            TestResult.error := None |}] in
           console_log [VString "Resultado procesado:"; result];;
           mret results)
          (fun error =>
             let results :=
               results ++ [{| TestResult.url := url;
                              TestResult.response := None;
                              TestResult.result := None;
                              TestResult.error := Some (exn_message error) |}] in
             console_log [VString "Error:"; VString (exn_message error)];;
             mret results);
      emit (SetTimeout 1000);;
      testMultipleUrls_loop this data urls results
  end.

(** [testMultipleUrls(data, urls)] *)
Definition testMultipleUrls (this : CuboClient) (data : loc) (urls : list string)
  : M (list TestResult.t) :=
  testMultipleUrls_loop this data urls [].

End Client.

(** ** The driver of [test.ts] *)

(** The object literal [paymentData] of [runTest]. *)
Definition runTest_paymentData : gmap string value :=
  {[ "clientName" := VString "John Doe";
     "clientEmail" := VString "cliente@ejemplo.com";
     "clientPhone" := VString "+50322577777";
     "description" := VString "Test API";
     "amount" := VNumber Number.hundred;
     "cardHolder" := VString "John Doe";
     "cardNumber" := VString "4000000000000416";
     "cvv" := VString "123";
     "month" := VString "12";
     "year" := VString "26" ]}.

Section Driver.

Variable env : environment.

(** [runTest()].  The payment is an object literal of the function, hence
    a new object. *)
Definition runTest : M unit :=
  console_log [VString "Probando API CuboPago"];;
  let apiKey := "93aab3a749aa8da9"%string in
  let urlsToTry :=
    [ "https://api.cubo.com";
      "https://api.cubopago.com";
      "https://cubopago.com";
      "https://api-sandbox.cubopago.com";
      "https://sandbox.cubopago.com" ]%string in
  paymentData ← alloc runTest_paymentData;
  let client := new_CuboClient apiKey None in
  response ← pay env client (inl paymentData);
  result ← lift_outcome (handleResponse response);
  console_log [VString "Resultado procesado:"; result];;
  console_log [VString (newline +:+ newline +:+ "Probando múltiples URLs...")];;
  testMultipleUrls env client paymentData urlsToTry;;
  mret ().

End Driver.

(** * Specification

    What the properties below are stated with: the requests and replies of
    [pay] as functions of the payload and of the answer on the wire, the
    outcomes a probe sequence has to return, and the data of the test
    driver. *)

(** The literals of the specification's examples.  [1], [100], [1050] and
    [2000] are integers and [10.5] is [21 / 2]; [19.999] is not a binary
    fraction and denotes the nearest binary64. *)
Definition amount_10_5 : number := Number.exact false 21 (- 1).
Definition amount_19_999 : number := S754_finite false 5629218059236409 (- 48).

(** The payload [pay] sends for the fields [o] of a payment object. *)
Definition outgoing (o : gmap string value) : gmap string value :=
  match converted_amount (get_own o "amount") with
  | Some cents => <["amount" := cents]> o
  | None => o
  end.

Definition pay_request (this : CuboClient) (body : value) : request :=
  {| endpoint := url this +:+ "/api/v1/transactions";
     body := body;
     request_headers := headers this |}.

Definition pay_reply (t : transport) : value :=
  match t with
  | Response status data =>
      if ((200 <=? status) && (status <? 300))%N then data
      else VObject {[ "error" := VString ("Error del servidor: " +:+ string_of_N status);
                      "details" := data ]}
  | NoResponse _ => error_object "No se recibió respuesta del servidor"
  | NotSent message => error_object ("Error de conexión: " +:+ message)
  end.

(** The outcome to record for a URL whose request got [response] from
    [pay]: the response and its normalised result, or the message of the
    error that [handleResponse] threw. *)
Definition probe_outcome (url : string) (response : value) : TestResult.t :=
  match handleResponse response with
  | Returned result =>
      {| TestResult.url := url;
         TestResult.response := Some response;
         TestResult.result := Some result;
         TestResult.error := None |}
  | Thrown e =>
      {| TestResult.url := url;
         TestResult.response := None;
         TestResult.result := None;
         TestResult.error := Some (exn_message e) |}
  end.

(** The request a probe of [url] makes. *)
Definition probe_request (key : string) (body : value) (url : string) : request :=
  pay_request (new_CuboClient key (Some url)) body.

(** The pauses taken so far, in milliseconds. *)
Definition pauses (t : list event) : list Z :=
  omap (fun ev => match ev with SetTimeout ms => Some ms | _ => None end) t.

(** The requests and the pauses of a trace, in the order they happened: a
    request is [inl], a pause [inr] with its milliseconds. *)
Definition schedule (t : list event) : list (request + Z) :=
  omap (fun ev => match ev with
                  | AxiosPost r => Some (inl r)
                  | SetTimeout ms => Some (inr ms)
                  | ConsoleLog _ => None
                  end) t.

(** The schedule of a probe sequence: for each URL in turn its request,
    then a pause of 1000 ms. *)
Definition probe_schedule (key : string) (body : value) (urls : list string)
  : list (request + Z) :=
  flat_map (fun url => [inl (probe_request key body url); inr 1000]) urls.

Section Specification.

Variable env : environment.

(** The fields of the payment object that [data] stands for: the caller's
    object, or the object a string decodes to. *)
Definition payload (σ : state) (data : loc + string) (o : gmap string value) : Prop :=
  match data with
  | inl l => heap σ !! l = Some o
  | inr text => JSON_parse env text = Some (VObject o)
  end.

(** What a probe sequence has to return: one outcome per URL, in the order
    of the list, each from the answer to that URL's own request, made
    whatever the earlier outcomes were ([past] lists the requests made
    before). *)
Fixpoint probe_outcomes (key : string) (body : value) (past : list request)
    (urls : list string) : list TestResult.t :=
  match urls with
  | [] => []
  | url :: urls =>
      let r := probe_request key body url in
      probe_outcome url (pay_reply (network env past r))
      :: probe_outcomes key body (past ++ [r]) urls
  end.

End Specification.

(** ** The test driver's data, on a small network *)

Module Example.

(** The payment of [test.ts], with the amount left open. *)
Definition paymentData (amount : number) : gmap string value :=
  {[ "clientName" := VString "John Doe";
     "clientEmail" := VString "cliente@ejemplo.com";
     "clientPhone" := VString "+50322577777";
     "description" := VString "Test API";
     "amount" := VNumber amount;
     "cardHolder" := VString "John Doe";
     "cardNumber" := VString "4000000000000416";
     "cvv" := VString "123";
     "month" := VString "12";
     "year" := VString "26" ]}.

Definition succeeded : value :=
  VObject {[ "status" := VString "SUCCEEDED";
             "referenceId" := VString "r1";
             "authorizationCode" := VString "a1";
             "processedAt" := VString "t1" ]}.

Definition declined : value := VObject {[ "message" := VString "declined" ]}.

(** A decoder that knows two texts, a printer that prints nothing, and a
    network on which the first host of the driver's list answers 200 with
    the body [null], the second accepts the payment, the third answers 500
    and nobody else answers. *)
Definition env : environment :=
  {| JSON_parse := fun text =>
       if String.eqb text "null" then Some VNull
       else if String.eqb text "{}" then Some (VObject ∅)
       else None;
     JSON_stringify := fun _ => EmptyString;
     network := fun _ r =>
       if String.eqb (endpoint r) "https://api.cubo.com/api/v1/transactions"
       then Response 200 VNull
       else if String.eqb (endpoint r) "https://api.cubopago.com/api/v1/transactions"
       then Response 200 succeeded
       else if String.eqb (endpoint r) "https://cubopago.com/api/v1/transactions"
       then Response 500 declined
       else NoResponse "Network Error" |}.

Definition client : CuboClient := new_CuboClient "93aab3a749aa8da9" None.
Definition client3 : CuboClient :=
  new_CuboClient "93aab3a749aa8da9" (Some "https://cubopago.com"%string).

(** Two payment objects of the caller: one of 10.5 dollars at address 1,
    one of 100 cents at address 2. *)
Definition initial : state :=
  {| heap := {[ 1%positive := paymentData amount_10_5;
                2%positive := paymentData Number.hundred ]};
     trace := [] |}.

End Example.

(** ** Failed requests, the driver's requests, and a machine off line *)

(** What a transport outcome other than a 2xx answer makes of the [error]
    field. *)
Definition transport_error (t : transport) : string :=
  match t with
  | Response status _ => "Error del servidor: " +:+ string_of_N status
  | NoResponse _ => "No se recibió respuesta del servidor"
  | NotSent message => "Error de conexión: " +:+ message
  end.

(** The first request of the driver: the payment, with its amount of 100
    unchanged, to the default host. *)
Definition driver_request : request :=
  pay_request (new_CuboClient "93aab3a749aa8da9" None)
    (VObject runTest_paymentData).

(** The requests of the driver's probe, in order. *)
Definition driver_probes : list request :=
  map (probe_request "93aab3a749aa8da9" (VObject runTest_paymentData))
    [ "https://api.cubo.com";
      "https://api.cubopago.com";
      "https://cubopago.com";
      "https://api-sandbox.cubopago.com";
      "https://sandbox.cubopago.com" ]%string.

(** The binary64 nearest to 19.99. *)
Definition amount_19_99 : number := S754_finite false 5626684784446013 (- 48).

Module Offline.

(** A decoder that knows the text [42], and a network on which no request
    can be sent. *)
Definition env : environment :=
  {| JSON_parse := fun text =>
       if String.eqb text "42" then Some (VNumber (Number.exact false 42 0)) else None;
     JSON_stringify := fun _ => EmptyString;
     network := fun _ _ => NotSent "getaddrinfo ENOTFOUND api.cubo.com" |}.

(** Two objects of the caller: at address 1 a payment whose amount is a
    string, at address 2 one of 19.99. *)
Definition initial : state :=
  {| heap := {[ 1%positive := {[ "amount" := VString "10.5"; "cvv" := VString "123" ]};
                2%positive := Example.paymentData amount_19_99 ]};
     trace := [] |}.

End Offline.

(** Clients for the second host of the driver's list, which accepts the
    payment on the small network, and for its last host, which is
    silent. *)
Module Hosts.

Definition accepting : CuboClient :=
  new_CuboClient "93aab3a749aa8da9" (Some "https://api.cubopago.com"%string).

Definition silent : CuboClient :=
  new_CuboClient "93aab3a749aa8da9" (Some "https://sandbox.cubopago.com"%string).

End Hosts.

(** * Properties *)

(** ** Numbers *)

Module NumberFacts.
Import Number.

Lemma pow2_Q (k : Z) : 0 <= k -> (2 ^ k == inject_Z (2 ^ k))%Q.
Proof. intros Hk. now rewrite Zpower_Qpower. Qed.

Lemma pow2_Q_pos (k : Z) : (0 < 2 ^ k)%Q.
Proof. now apply Qpower_0_lt. Qed.

Lemma dyadic_shift (m e d : Z) :
  0 <= d -> (dyadic (m * 2 ^ d) (e - d) == dyadic m e)%Q.
Proof.
  intros Hd. unfold dyadic.
  replace e with ((e - d) + d) at 2 by lia.
  rewrite Qpower_plus by discriminate.
  rewrite (pow2_Q d) by assumption.
  rewrite inject_Z_mult. ring.
Qed.

Lemma dyadic_integer (m k n : Z) :
  0 <= k -> (dyadic m (- k) == inject_Z n)%Q <-> m = n * 2 ^ k.
Proof.
  intros Hk. unfold dyadic. rewrite Qpower_opp, (pow2_Q k) by assumption.
  assert (Hpos : 0 < 2 ^ k) by (apply Z.pow_pos_nonneg; lia).
  assert (Hne : ~ (inject_Z (2 ^ k) == 0)%Q).
  { unfold Qeq. cbn. lia. }
  split.
  - intros H. apply inject_Z_injective. rewrite inject_Z_mult, <- H. field. exact Hne.
  - intros ->. rewrite inject_Z_mult. field. exact Hne.
Qed.

Lemma shl_align_spec (p : positive) (e e' : Z) :
  Zpos (fst (shl_align p e e')) = Zpos p * 2 ^ (e - snd (shl_align p e e'))
  /\ snd (shl_align p e e') = Z.min e e'.
Proof.
  unfold shl_align. destruct (e' - e) as [|d|d] eqn:He; cbn [fst snd].
  - rewrite Z.sub_diag. lia.
  - rewrite Z.sub_diag. lia.
  - change (Pos.iter xO p d) with (shift_pos d p).
    rewrite shift_pos_correct, Z.pow_pos_fold.
    replace (e - e') with (Zpos d) by lia. lia.
Qed.

Lemma exact_finite (s : bool) (m e : Z) : isFinite (exact s m e) = true.
Proof.
  unfold exact. destruct m as [|p|p]; try reflexivity.
  now destruct (shl_align p e _).
Qed.

Lemma exact_toQ (s : bool) (m e : Z) :
  0 <= m -> (toQ (exact s m e) == dyadic (cond_Zopp s m) e)%Q.
Proof.
  intros Hm. unfold exact. destruct m as [|p|p]; try lia.
  - unfold dyadic. destruct s; cbn [toQ cond_Zopp Z.opp]; symmetry; apply Qmult_0_l.
  - destruct (shl_align_spec p e (fexp prec emax (Zpos (digits2_pos p) + e))) as [H1 H2].
    destruct (shl_align p e _) as [p' e']. cbn [fst snd] in H1, H2.
    cbn [toQ]. fold (dyadic (cond_Zopp s (Zpos p')) e').
    rewrite <- (dyadic_shift (cond_Zopp s (Zpos p)) e (e - e')) by lia.
    replace (e - (e - e')) with e' by lia.
    replace (cond_Zopp s (Zpos p) * 2 ^ (e - e')) with (cond_Zopp s (Zpos p'));
      [reflexivity | destruct s; cbn [cond_Zopp]; lia].
Qed.

Lemma exact_zero_iff (s : bool) (m e : Z) :
  0 <= m -> (strict_eq (exact s m e) zero = true <-> m = 0).
Proof.
  intros Hm. unfold exact. destruct m as [|p|p]; try lia.
  - now destruct s.
  - destruct (shl_align p e _) as [p' e']. split; [|discriminate].
    now destruct s.
Qed.

(** Bounds of [floor(m / 2^k + 1/2)]. *)
Lemma half_up_bounds (m k n : Z) :
  0 < k -> n = (m + 2 ^ (k - 1)) / 2 ^ k ->
  (inject_Z n - (1 # 2) <= dyadic m (- k))%Q /\ (dyadic m (- k) < inject_Z n + (1 # 2))%Q.
Proof.
  intros Hk Hn.
  assert (Hp : 0 < 2 ^ (k - 1)) by (apply Z.pow_pos_nonneg; lia).
  assert (H2 : 2 ^ k = 2 * 2 ^ (k - 1)).
  { replace k with (Z.succ (k - 1)) at 1 by lia. apply Z.pow_succ_r. lia. }
  assert (Hlo : 2 ^ k * n <= m + 2 ^ (k - 1)).
  { subst n. apply Z.mul_div_le. lia. }
  assert (Hhi : m + 2 ^ (k - 1) < 2 ^ k * (n + 1)).
  { subst n. pose proof (Z.mod_pos_bound (m + 2 ^ (k - 1)) (2 ^ k) ltac:(lia)).
    pose proof (Z.div_mod (m + 2 ^ (k - 1)) (2 ^ k) ltac:(lia)). lia. }
  assert (Hq : (dyadic m (- k) == inject_Z m / inject_Z (2 ^ k))%Q).
  { unfold dyadic. rewrite Qpower_opp, (pow2_Q k) by lia. reflexivity. }
  assert (Hd : (0 < inject_Z (2 ^ k))%Q).
  { rewrite <- pow2_Q by lia. apply pow2_Q_pos. }
  rewrite Hq. split.
  - apply Qle_shift_div_l; [exact Hd|].
    rewrite H2, inject_Z_mult.
    set (P := 2 ^ (k - 1)) in *.
    assert (E : ((inject_Z n - (1 # 2)) * (inject_Z 2 * inject_Z P)
                 == inject_Z (2 * P * n + - P))%Q).
    { rewrite inject_Z_plus, inject_Z_opp, !inject_Z_mult.
      change (inject_Z 2) with (2 # 1)%Q. field. }
    rewrite E, <- Zle_Qle. lia.
  - apply Qlt_shift_div_r; [exact Hd|].
    rewrite H2, inject_Z_mult.
    set (P := 2 ^ (k - 1)) in *.
    assert (E : ((inject_Z n + (1 # 2)) * (inject_Z 2 * inject_Z P)
                 == inject_Z (2 * P * n + P))%Q).
    { rewrite inject_Z_plus, !inject_Z_mult.
      change (inject_Z 2) with (2 # 1)%Q. field. }
    rewrite E, <- Zlt_Qlt. lia.
Qed.

(** [Math.round] returns the nearest integer, the upper one on a tie. *)
Lemma round_nearest (x : number) :
  isFinite x = true ->
  exists n : Z,
    isFinite (round x) = true /\ (toQ (round x) == inject_Z n)%Q /\
    (inject_Z n - (1 # 2) <= toQ x)%Q /\ (toQ x < inject_Z n + (1 # 2))%Q.
Proof.
  destruct x as [s|s| |s m e]; try discriminate; intros _.
  - exists 0. cbn. repeat split; try reflexivity; discriminate.
  - cbn [round]. destruct (Z.leb_spec 0 e) as [He|He].
    + exists (cond_Zopp s (Zpos m) * 2 ^ e).
      assert (Hv : (toQ (S754_finite s m e) == inject_Z (cond_Zopp s (Zpos m) * 2 ^ e))%Q).
      { cbn [toQ]. rewrite inject_Z_mult, (pow2_Q e) by lia. reflexivity. }
      split; [reflexivity|]. split; [exact Hv|]. rewrite Hv. split.
      * apply Qle_minus_iff. ring_simplify. discriminate.
      * rewrite <- (Qplus_0_r (inject_Z _)) at 1. apply Qplus_lt_r. reflexivity.
    + set (n := (cond_Zopp s (Zpos m) + 2 ^ (- e - 1)) / 2 ^ (- e)).
      exists n. split; [apply exact_finite|]. split.
      * rewrite exact_toQ by lia. unfold dyadic. cbn [Qpower]. rewrite Qmult_1_r.
        apply inject_Z_injective.
        destruct (Z.eqb_spec n 0) as [->|Hn]; [now destruct s|].
        destruct (Z.ltb_spec n 0); cbn [cond_Zopp]; lia.
      * cbn [toQ]. fold (dyadic (cond_Zopp s (Zpos m)) e).
        pose proof (half_up_bounds (cond_Zopp s (Zpos m)) (- e) n ltac:(lia) eq_refl) as Hb.
        now rewrite Z.opp_involutive in Hb.
Qed.

(** [x % 1] is zero exactly when the finite number [x] is integral. *)
Lemma rem_one_integral (x : number) :
  isFinite x = true ->
  (strict_eq (rem x one) zero = true <-> integral x).
Proof.
  destruct x as [s|s| |s m e]; try discriminate; intros _.
  - split; [intros _|reflexivity].
    split; [reflexivity|]. exists 0. reflexivity.
  - change one with (S754_finite false (2 ^ 52) (- 52)).
    cbn [rem]. set (ez := Z.min e (- 52)).
    destruct (shl_align_spec m e ez) as [HX HXe].
    destruct (shl_align_spec (2 ^ 52) (- 52) ez) as [HY HYe].
    set (X := Zpos (fst (shl_align m e ez))) in *.
    set (Y := Zpos (fst (shl_align (2 ^ 52) (- 52) ez))) in *.
    assert (Hez : ez <= e /\ ez <= - 52) by (unfold ez; lia).
    rewrite HXe in HX. rewrite HYe in HY.
    replace (Z.min e ez) with ez in HX by lia.
    replace (Z.min (- 52) ez) with ez in HY by lia.
    assert (HY' : Y = 2 ^ (- ez)).
    { rewrite HY. change (Zpos (2 ^ 52)) with (2 ^ 52).
      rewrite <- Z.pow_add_r by lia. f_equal. lia. }
    assert (HYpos : 0 < Y) by (unfold Y; lia).
    rewrite exact_zero_iff by (apply Z.mod_pos_bound; exact HYpos).
    rewrite Z.mod_divide by lia.
    unfold integral. cbn [isFinite toQ].
    fold (dyadic (cond_Zopp s (Zpos m)) e).
    assert (Hsh : (dyadic (cond_Zopp s (Zpos m)) e
                   == dyadic (cond_Zopp s X) (- - ez))%Q).
    { rewrite <- (dyadic_shift (cond_Zopp s (Zpos m)) e (e - ez)) by lia.
      replace (e - (e - ez)) with (- - ez) by lia.
      replace (cond_Zopp s (Zpos m) * 2 ^ (e - ez)) with (cond_Zopp s X);
        [reflexivity | destruct s; cbn [cond_Zopp]; lia]. }
    split.
    + intros [q Hq]. split; [reflexivity|].
      exists (cond_Zopp s q). rewrite Hsh.
      apply dyadic_integer; [lia|]. rewrite <- HY'.
      destruct s; cbn [cond_Zopp]; lia.
    + intros [_ [n Hn]]. rewrite Hsh in Hn.
      apply dyadic_integer in Hn; [|lia]. rewrite <- HY' in Hn.
      exists (cond_Zopp s n). destruct s; cbn [cond_Zopp] in *; lia.
Qed.
(** *** The product with 100 does not overflow *)

Lemma digits2_size (p : positive) : digits2_pos p = Pos.size p.
Proof. induction p as [p IH|p IH|]; cbn; congruence. Qed.

Lemma Zdigits2_le (z k : Z) : 0 <= z < 2 ^ k -> 0 <= k -> Zdigits2 z <= k.
Proof.
  intros [Hz Hk] Hk0. destruct z as [|p|p]; cbn [Zdigits2]; try lia.
  rewrite digits2_size.
  pose proof (Pos.size_le p) as Hle.
  assert (H2 : 2 ^ Zpos (Pos.size p) <= 2 * Zpos p).
  { change (2 * Zpos p) with (Zpos p~0). rewrite <- Pos2Z.inj_pow. exact Hle. }
  destruct (Z.le_gt_cases (Zpos (Pos.size p)) k) as [|Hgt]; [assumption|].
  assert (2 ^ (k + 1) <= 2 ^ Zpos (Pos.size p)) by (apply Z.pow_le_mono_r; lia).
  rewrite Z.pow_add_r in * by lia. lia.
Qed.

Lemma shr_1_bounds (mrs : shr_record) :
  0 <= shr_m mrs -> 0 <= shr_m (shr_1 mrs) <= shr_m mrs.
Proof.
  destruct mrs as [m r s]. cbn [shr_m]. intros Hm.
  destruct m as [|[p|p|]|p]; cbn [shr_1 shr_m]; lia.
Qed.

Lemma iter_shr_1_bounds (n : positive) :
  forall mrs : shr_record,
    0 <= shr_m mrs -> 0 <= shr_m (SpecFloat.iter_pos shr_1 n mrs) <= shr_m mrs.
Proof.
  induction n as [n IH|n IH|]; intros mrs Hm; cbn [SpecFloat.iter_pos].
  - pose proof (shr_1_bounds mrs Hm) as H1.
    pose proof (IH (shr_1 mrs) (proj1 H1)) as H2.
    pose proof (IH _ (proj1 H2)) as H3. lia.
  - pose proof (IH mrs Hm) as H2.
    pose proof (IH _ (proj1 H2)) as H3. lia.
  - now apply shr_1_bounds.
Qed.

Lemma shr_fexp_bounds (m e : Z) (l : location) :
  0 <= m ->
  0 <= shr_m (fst (shr_fexp prec emax m e l)) <= m /\
  snd (shr_fexp prec emax m e l) = Z.max e (fexp prec emax (Zdigits2 m + e)).
Proof.
  intros Hm. unfold shr_fexp, shr.
  assert (Hrec : shr_m (shr_record_of_loc m l) = m) by (now destruct l as [|[]]).
  destruct (fexp prec emax (Zdigits2 m + e) - e) as [|n|n] eqn:Hn; cbn [fst snd].
  - rewrite Hrec. lia.
  - pose proof (iter_shr_1_bounds n (shr_record_of_loc m l)) as Hb.
    rewrite Hrec in Hb. specialize (Hb Hm). lia.
  - rewrite Hrec. lia.
Qed.

Lemma round_nearest_even_bounds (m : Z) (l : location) :
  m <= round_nearest_even m l <= m + 1.
Proof.
  unfold round_nearest_even. destruct l as [|[]]; try lia.
  destruct (Z.even m); lia.
Qed.

(** Rounding a mantissa below [2^106] with a moderate exponent gives a finite
    number. *)
Lemma binary_round_aux_finite (s : bool) (m e : Z) :
  0 <= m < 2 ^ 106 -> e <= 800 ->
  isFinite (binary_round_aux prec emax s m e loc_Exact) = true.
Proof.
  intros Hm He. unfold binary_round_aux.
  destruct (shr_fexp_bounds m e loc_Exact (proj1 Hm)) as [Hm1 He1].
  destruct (shr_fexp prec emax m e loc_Exact) as [mrs1 e1]. cbn [fst snd] in Hm1, He1.
  set (m1 := round_nearest_even (shr_m mrs1) (loc_of_shr_record mrs1)).
  pose proof (round_nearest_even_bounds (shr_m mrs1) (loc_of_shr_record mrs1)) as Hr.
  fold m1 in Hr.
  assert (Hm1' : 0 <= m1 < 2 ^ 107).
  { change (2 ^ 107) with (2 * 2 ^ 106). lia. }
  destruct (shr_fexp_bounds m1 e1 loc_Exact (proj1 Hm1')) as [Hm2 He2].
  destruct (shr_fexp prec emax m1 e1 loc_Exact) as [mrs2 e2]. cbn [fst snd] in Hm2, He2.
  assert (Hd : Zdigits2 m <= 106) by (apply Zdigits2_le; lia).
  assert (Hd1 : Zdigits2 m1 <= 107) by (apply Zdigits2_le; lia).
  assert (He2' : e2 <= emax - prec).
  { unfold fexp, emin, prec, emax in *. lia. }
  destruct (shr_m mrs2) as [|p|p]; [reflexivity| |lia].
  apply Z.leb_le in He2'. now rewrite He2'.
Qed.

Lemma valid_mantissa (s : bool) (m : positive) (e : Z) :
  valid_binary prec emax (S754_finite s m e) = true -> Zpos m < 2 ^ 53.
Proof.
  cbn [valid_binary]. unfold bounded, canonical_mantissa. intros H.
  apply andb_true_iff in H. destruct H as [H _]. apply Z.eqb_eq in H.
  rewrite digits2_size in H.
  assert (Hs : Zpos (Pos.size m) <= 53) by (unfold fexp, emin, prec, emax in H; lia).
  pose proof (Pos.size_gt m) as Hgt.
  assert (Hlt : Zpos m < 2 ^ Zpos (Pos.size m)).
  { rewrite <- Pos2Z.inj_pow. exact Hgt. }
  assert (2 ^ Zpos (Pos.size m) <= 2 ^ 53) by (apply Z.pow_le_mono_r; lia).
  lia.
Qed.

(** The product of a binary64 with a fractional part and 100 is finite. *)
Lemma mul_hundred_finite (s : bool) (m : positive) (e : Z) :
  valid_binary prec emax (S754_finite s m e) = true -> e < 0 ->
  isFinite (mul (S754_finite s m e) hundred) = true.
Proof.
  intros Hv He. pose proof (valid_mantissa s m e Hv) as Hm.
  change hundred with (S754_finite false 7036874417766400 (- 46)).
  unfold mul. cbn [SFmul]. apply binary_round_aux_finite; [|lia].
  rewrite Pos2Z.inj_mul. split; [lia|].
  change (2 ^ 106) with (2 ^ 53 * 2 ^ 53).
  apply Z.mul_lt_mono_nonneg; [lia | exact Hm | lia | reflexivity].
Qed.

(** A finite number with a non-negative exponent is an integer. *)
Lemma nonneg_exponent_integral (s : bool) (m : positive) (e : Z) :
  0 <= e -> integral (S754_finite s m e).
Proof.
  intros He. split; [reflexivity|].
  exists (cond_Zopp s (Zpos m) * 2 ^ e). cbn [toQ].
  now rewrite inject_Z_mult, (pow2_Q e).
Qed.

End NumberFacts.

(** ** [handleResponse] *)

Lemma strict_eq_string_true (v : value) (s : string) :
  strict_eq_string v s = true <-> v = VString s.
Proof.
  destruct v; cbn; try (split; [discriminate | intros [=]]).
  rewrite String.eqb_eq. split; [now intros -> | now intros [= ->]].
Qed.

Lemma get_own_absent (fields : gmap string value) (k : string) :
  fields !! k = None -> get_own fields k = VUndefined.
Proof. unfold get_own. now intros ->. Qed.

Lemma get_own_present (fields : gmap string value) (k : string) (v : value) :
  fields !! k = Some v -> get_own fields k = v.
Proof. unfold get_own. now intros ->. Qed.

(** C1 (as amended): a response whose [error] field holds a truthy value (a
    non-empty string) is mapped to [{ success: false, message: error }],
    whatever its other fields are, [status] included. *)
Theorem handleResponse_error (fields : gmap string value) (e : value) :
  fields !! "error" = Some e ->
  truthy e = true ->
  handleResponse (VObject fields)
  = Returned (VObject {[ "success" := VBool false; "message" := e ]}).
Proof.
  intros He Ht. unfold handleResponse. cbn.
  now rewrite (get_own_present _ _ _ He), Ht.
Qed.

Lemma handleResponse_error_witness :
  handleResponse (VObject {[ "error" := VString "x"; "status" := VString "SUCCEEDED" ]})
  = Returned (VObject {[ "success" := VBool false; "message" := VString "x" ]}).
Proof. apply (handleResponse_error _ (VString "x")); reflexivity. Defined.

(** C1 as stated fails: the empty string is a set [error] field, yet with
    [status: "SUCCEEDED"] the response is reported as a success. *)
Lemma handleResponse_empty_error :
  let response : gmap string value :=
    {[ "error" := VString EmptyString; "status" := VString "SUCCEEDED" ]} in
  response !! "error" = Some (VString EmptyString) /\
  handleResponse (VObject response)
  = Returned (VObject {[ "success" := VBool true;
                         "reference_id" := VUndefined;
                         "authorization_code" := VUndefined;
                         "processed_at" := VUndefined ]}) /\
  handleResponse (VObject response)
  <> Returned (VObject {[ "success" := VBool false; "message" := VString EmptyString ]}).
Proof.
  cbv zeta. split; [reflexivity|]. split; [reflexivity|].
  intros H.
  apply (f_equal (fun o => match o with
                           | Returned (VObject r) => r !! "success"
                           | _ => None
                           end)) in H.
  vm_compute in H. discriminate H.
Qed.

(** C2: a response without [error] field and with [status: "SUCCEEDED"] is
    mapped to [{ success: true, reference_id, authorization_code,
    processed_at }], the three taken from [referenceId], [authorizationCode]
    and [processedAt]; the result has no [message] field. *)
Theorem handleResponse_succeeded (fields : gmap string value) :
  fields !! "error" = None ->
  fields !! "status" = Some (VString "SUCCEEDED") ->
  exists result : gmap string value,
    handleResponse (VObject fields) = Returned (VObject result) /\
    result = {[ "success" := VBool true;
                "reference_id" := get_own fields "referenceId";
                "authorization_code" := get_own fields "authorizationCode";
                "processed_at" := get_own fields "processedAt" ]} /\
    result !! "message" = None.
Proof.
  intros He Hs. eexists. split; [|split; [reflexivity|]].
  - unfold handleResponse. cbn.
    now rewrite (get_own_absent _ _ He), (get_own_present _ _ _ Hs).
  - reflexivity.
Qed.

Lemma handleResponse_succeeded_witness :
  exists result : gmap string value,
    handleResponse (VObject {[ "status" := VString "SUCCEEDED";
                               "referenceId" := VString "r1";
                               "authorizationCode" := VString "a1";
                               "processedAt" := VString "t1" ]})
    = Returned (VObject result) /\
    result = {[ "success" := VBool true;
                "reference_id" := VString "r1";
                "authorization_code" := VString "a1";
                "processed_at" := VString "t1" ]} /\
    result !! "message" = None.
Proof.
  exact (handleResponse_succeeded
           {[ "status" := VString "SUCCEEDED"; "referenceId" := VString "r1";
              "authorizationCode" := VString "a1"; "processedAt" := VString "t1" ]}
           eq_refl eq_refl).
Defined.

(** C3 (as amended): a response without [error] field whose [status] is not
    ["SUCCEEDED"] is mapped to [{ success: false, message }], where [message]
    is the response's [message] when that is truthy (a non-empty string) and
    ["Error desconocido"] otherwise, in particular when it is absent. *)
Theorem handleResponse_failed (fields : gmap string value) :
  fields !! "error" = None ->
  fields !! "status" <> Some (VString "SUCCEEDED") ->
  handleResponse (VObject fields)
  = Returned (VObject {[ "success" := VBool false;
                         "message" := if truthy (get_own fields "message")
                                      then get_own fields "message"
                                      else VString "Error desconocido" ]}) /\
  (fields !! "message" = None ->
   handleResponse (VObject fields)
   = Returned (VObject {[ "success" := VBool false;
                          "message" := VString "Error desconocido" ]})).
Proof.
  intros He Hs.
  assert (Hst : strict_eq_string (get_own fields "status") "SUCCEEDED" = false).
  { apply not_true_is_false. rewrite strict_eq_string_true. intros Hv.
    apply Hs. unfold get_own in Hv. destruct (fields !! "status"); cbn in Hv; congruence. }
  assert (Hr : handleResponse (VObject fields)
               = Returned (VObject {[ "success" := VBool false;
                                      "message" := if truthy (get_own fields "message")
                                                   then get_own fields "message"
                                                   else VString "Error desconocido" ]})).
  { unfold handleResponse. cbn. now rewrite (get_own_absent _ _ He), Hst. }
  split; [exact Hr|].
  intros Hm. rewrite Hr. now rewrite (get_own_absent _ _ Hm).
Qed.

Lemma handleResponse_failed_witness :
  handleResponse (VObject {[ "status" := VString "FAILED"; "message" := VString "declined" ]})
  = Returned (VObject {[ "success" := VBool false; "message" := VString "declined" ]}) /\
  handleResponse (VObject {[ "status" := VString "FAILED" ]})
  = Returned (VObject {[ "success" := VBool false; "message" := VString "Error desconocido" ]}).
Proof.
  split.
  - exact (proj1 (handleResponse_failed
                    {[ "status" := VString "FAILED"; "message" := VString "declined" ]}
                    eq_refl ltac:(discriminate))).
  - exact (proj2 (handleResponse_failed {[ "status" := VString "FAILED" ]}
                    eq_refl ltac:(discriminate)) eq_refl).
Defined.

(** C3 as stated fails twice: without [message] the result carries
    ["Error desconocido"], not ["Unknown error"]; and an empty [message],
    which [??] would keep, is replaced as well. *)
Lemma handleResponse_unknown_error :
  handleResponse (VObject {[ "status" := VString "FAILED" ]})
  <> Returned (VObject {[ "success" := VBool false; "message" := VString "Unknown error" ]}) /\
  handleResponse (VObject {[ "status" := VString "FAILED"; "message" := VString EmptyString ]})
  <> Returned (VObject {[ "success" := VBool false; "message" := VString EmptyString ]}).
Proof.
  split; intros H;
    apply (f_equal (fun o => match o with
                             | Returned (VObject r) => r !! "message"
                             | _ => None
                             end)) in H;
    vm_compute in H; discriminate H.
Qed.

(** ** Amounts *)

Lemma literal_values :
  (Number.toQ Number.one == 1)%Q /\
  (Number.toQ Number.hundred == 100)%Q /\
  (Number.toQ amount_10_5 == 21 # 2)%Q /\
  (Number.toQ (Number.exact false 1050 0) == 1050)%Q /\
  (Number.toQ (Number.exact false 2000 0) == 2000)%Q.
Proof. repeat split. Qed.

(** [amount_19_999] is a valid binary64, within half a unit in the last
    place of 19999/1000. *)
Lemma amount_19_999_literal :
  valid_binary Number.prec Number.emax amount_19_999 = true /\
  (Qabs (Number.toQ amount_19_999 - (19999 # 1000)) <= 2 ^ (- 49))%Q.
Proof. split; [reflexivity|]. vm_compute. discriminate. Qed.

Lemma round_integral (x : number) :
  Number.isFinite (Number.round x) = true -> Number.integral (Number.round x).
Proof.
  intros Hf. split; [exact Hf|].
  destruct (Number.isFinite x) eqn:Hx.
  - destruct (NumberFacts.round_nearest x Hx) as (n & _ & Hn & _). now exists n.
  - destruct x; cbn in Hx, Hf; congruence.
Qed.

Lemma converted_amount_fractional (a : number) :
  Number.isFinite a = true -> ~ Number.integral a ->
  converted_amount (VNumber a) = Some (VNumber (convertCentv a)).
Proof.
  intros Hf Hn. unfold converted_amount. rewrite Hf.
  destruct (Number.strict_eq (Number.rem a Number.one) Number.zero) eqn:Hz; [|reflexivity].
  now apply NumberFacts.rem_one_integral in Hz.
Qed.

Lemma converted_amount_integral (a : number) :
  Number.integral a -> converted_amount (VNumber a) = None.
Proof.
  intros Hi. unfold converted_amount.
  destruct (Number.isFinite a) eqn:Hf; [|reflexivity].
  apply NumberFacts.rem_one_integral in Hi; [|exact Hf]. now rewrite Hi.
Qed.

(** C4: [convertCentv a] is [Math.round] of the product [a * 100]: when the
    product is finite, the integer nearest to it (at most 1/2 away, the upper
    one on a tie); otherwise the product itself.  It maps 1.00 to 100 and
    19.999 to 2000. *)
Theorem convertCentv_rounds :
  (forall a : number,
     let p := Number.mul a Number.hundred in
     (Number.isFinite p = false -> convertCentv a = p) /\
     (Number.isFinite p = true ->
      exists n : Z,
        Number.isFinite (convertCentv a) = true /\
        (Number.toQ (convertCentv a) == inject_Z n)%Q /\
        (inject_Z n - (1 # 2) <= Number.toQ p)%Q /\
        (Number.toQ p < inject_Z n + (1 # 2))%Q)) /\
  convertCentv Number.one = Number.hundred /\
  convertCentv amount_19_999 = Number.exact false 2000 0.
Proof.
  split; [|split; reflexivity].
  intros a p. unfold convertCentv. fold p. split.
  - intros Hp. destruct p; cbn in Hp |- *; congruence.
  - apply NumberFacts.round_nearest.
Qed.

Lemma convertCentv_rounds_witness :
  exists n : Z,
    Number.isFinite (convertCentv amount_19_999) = true /\
    (Number.toQ (convertCentv amount_19_999) == inject_Z n)%Q /\
    (inject_Z n - (1 # 2) <= Number.toQ (Number.mul amount_19_999 Number.hundred))%Q /\
    (Number.toQ (Number.mul amount_19_999 Number.hundred) < inject_Z n + (1 # 2))%Q.
Proof. exact (proj2 (proj1 convertCentv_rounds amount_19_999) eq_refl). Defined.

(** The product is the binary64 one.  For the binary64 nearest to 0.045,
    which lies below 45/1000, the product with 100 is exactly 4.5, and
    [convertCentv] gives 5. *)
Remark convertCentv_0_045 :
  let a := S754_finite false 6485183463413514 (- 57) in
  valid_binary Number.prec Number.emax a = true /\
  (Qabs (Number.toQ a - (45 # 1000)) <= 2 ^ (- 58))%Q /\
  (Number.toQ a < 45 # 1000)%Q /\
  Number.mul a Number.hundred = Number.exact false 9 (- 1) /\
  convertCentv a = Number.exact false 5 0.
Proof. cbv zeta. repeat split. vm_compute. discriminate. Qed.

(** C10: the amount detection of [pay] is idempotent: applied to an
    amount it has already treated, it changes nothing, because the amount it
    leaves for a finite binary64 is an integer. *)
Theorem detected_amount_idempotent (amount : value) :
  detected_amount (detected_amount amount) = detected_amount amount /\
  (forall a : number,
     amount = VNumber a ->
     valid_binary Number.prec Number.emax a = true ->
     Number.isFinite a = true ->
     exists r : number,
       detected_amount amount = VNumber r /\ Number.integral r).
Proof.
  assert (Hconv : forall a c, converted_amount (VNumber a) = Some c ->
                              c = VNumber (convertCentv a)).
  { intros a c. unfold converted_amount.
    destruct (Number.isFinite a); [|discriminate].
    destruct (negb _); [now intros [= <-] | discriminate]. }
  assert (Hcents : forall a, converted_amount (VNumber (convertCentv a)) = None).
  { intros a. destruct (Number.isFinite (convertCentv a)) eqn:Hf.
    - apply converted_amount_integral. now apply round_integral.
    - unfold converted_amount. now rewrite Hf. }
  split.
  - unfold detected_amount at 2 3.
    destruct (converted_amount amount) as [c|] eqn:Hc; cbn [default from_option id].
    + destruct amount as [| | |a| | |]; try (cbn in Hc; discriminate Hc).
      apply Hconv in Hc. subst c. unfold detected_amount. now rewrite Hcents.
    + unfold detected_amount. now rewrite Hc.
  - intros a -> Hv Hf. unfold detected_amount.
    destruct (converted_amount (VNumber a)) as [c|] eqn:Hc; cbn [default from_option id].
    + pose proof (Hconv a c Hc) as ->. exists (convertCentv a).
      split; [reflexivity|]. apply round_integral.
      destruct a as [s|s| |s m e]; try discriminate Hf; try discriminate Hc.
      destruct (Z.le_gt_cases 0 e) as [He|He].
      * rewrite converted_amount_integral in Hc; [discriminate Hc|].
        now apply NumberFacts.nonneg_exponent_integral.
      * pose proof (NumberFacts.mul_hundred_finite s m e Hv ltac:(lia)) as Hp.
        destruct (NumberFacts.round_nearest _ Hp) as (n & Hr & _). exact Hr.
    + exists a. split; [reflexivity|].
      unfold converted_amount in Hc. rewrite Hf in Hc.
      destruct (Number.strict_eq _ _) eqn:Hz; [|discriminate].
      now apply NumberFacts.rem_one_integral in Hz.
Qed.

Lemma detected_amount_idempotent_witness :
  exists r : number,
    detected_amount (VNumber amount_10_5) = VNumber r /\ Number.integral r.
Proof.
  exact (proj2 (detected_amount_idempotent (VNumber amount_10_5))
           amount_10_5 eq_refl eq_refl eq_refl).
Defined.

(** The amount detection on the examples of the specification: 10.5 becomes
    1050, 100 stays 100, and what is not a finite number is left alone. *)
Example detected_amount_examples :
  detected_amount (VNumber amount_10_5) = VNumber (Number.exact false 1050 0) /\
  detected_amount (VNumber Number.hundred) = VNumber Number.hundred /\
  detected_amount (VNumber S754_nan) = VNumber S754_nan /\
  detected_amount (VString "10.5") = VString "10.5".
Proof. repeat split. Qed.

(** ** [pay] *)

Lemma requests_app (t1 t2 : list event) :
  requests (t1 ++ t2) = requests t1 ++ requests t2.
Proof. apply omap_app. Qed.

Lemma alter_present {A} (f : A -> A) (h : gmap loc A) (l : loc) (x : A) :
  h !! l = Some x -> alter f l h = <[l := f x]> h.
Proof.
  intros Hl. apply map_eq. intros i. rewrite lookup_alter, lookup_insert.
  case_decide; subst; [now rewrite Hl | reflexivity].
Qed.

Section PayFacts.

Variable env : environment.

Lemma pay_send_object (this : CuboClient) (l : loc) (o : gmap string value) (σ : state) :
  heap σ !! l = Some o ->
  let r := pay_request this (VObject (outgoing o)) in
  exists t' : list event,
    pay_send env this (RObject l) σ
    = (Returned (pay_reply (network env (requests (trace σ)) r)),
       {| heap := <[l := outgoing o]> (heap σ); trace := t' |}) /\
    requests t' = requests (trace σ) ++ [r].
Proof.
  intros Hl r. unfold pay_request in r.
  assert (Hstep :
    (match converted_amount (get_own o "amount") with
     | Some cents => store l "amount" cents
     | None => mret ()
     end) σ = (Returned (), {| heap := <[l := outgoing o]> (heap σ); trace := trace σ |})).
  { unfold outgoing. destruct (converted_amount _) as [cents|].
    - unfold store. now rewrite (alter_present _ _ _ _ Hl).
    - rewrite (insert_id _ _ _ Hl). now destruct σ. }
  unfold pay_send, get_field, load.
  unfold mbind, M_bind, mret, M_ret. cbn. rewrite Hl. cbn.
  unfold mret, M_ret in Hstep. rewrite Hstep.
  unfold try_catch, load, mbind, M_bind, mret, M_ret, axios_post. cbn.
  rewrite lookup_insert_eq. cbn.
  rewrite !requests_app. cbn. rewrite !app_nil_r.
  fold r.
  destruct (network env (requests (trace σ)) r) as [status data|message|message]; cbn.
  - destruct ((200 <=? status)%N && (status <? 300)%N); cbn;
      (eexists; split; [reflexivity|]); rewrite !requests_app; cbn; now rewrite !app_nil_r.
  - eexists; split; [reflexivity|]. rewrite !requests_app; cbn; now rewrite !app_nil_r.
  - eexists; split; [reflexivity|]. rewrite !requests_app; cbn; now rewrite !app_nil_r.
Qed.

(** [pay] on a reference to the caller's object: the copy is made at a
    fresh address, the request carries the copy after amount detection and
    the caller's heap is otherwise left as it was. *)
Lemma pay_object (this : CuboClient) (l : loc) (o : gmap string value) (σ : state) :
  heap σ !! l = Some o ->
  let r := pay_request this (VObject (outgoing o)) in
  exists t' : list event,
    pay env this (inl l) σ
    = (Returned (pay_reply (network env (requests (trace σ)) r)),
       {| heap := <[fresh (dom (heap σ)) := outgoing o]> (heap σ); trace := t' |}) /\
    requests t' = requests (trace σ) ++ [r].
Proof.
  intros Hl r. unfold pay, load, alloc.
  unfold mbind at 1 2, M_bind. cbn [fst snd heap trace]. rewrite Hl. cbn [default from_option id].
  set (l' := fresh (dom (heap σ))).
  destruct (pay_send_object this l' o {| heap := <[l' := o]> (heap σ); trace := trace σ |})
    as (t' & Hrun & Hreq); [apply lookup_insert_eq|].
  cbn [heap trace] in Hrun, Hreq. rewrite insert_insert_eq in Hrun.
  exists t'. split; [exact Hrun | exact Hreq].
Qed.

Lemma pay_parsed_object (this : CuboClient) (text : string) (o : gmap string value)
    (σ : state) :
  JSON_parse env text = Some (VObject o) ->
  let r := pay_request this (VObject (outgoing o)) in
  exists t' : list event,
    pay env this (inr text) σ
    = (Returned (pay_reply (network env (requests (trace σ)) r)),
       {| heap := <[fresh (dom (heap σ)) := outgoing o]> (heap σ); trace := t' |}) /\
    requests t' = requests (trace σ) ++ [r].
Proof.
  intros Hp r. unfold pay, alloc. rewrite Hp.
  unfold mbind at 1, M_bind. cbn [fst snd heap trace].
  set (l' := fresh (dom (heap σ))).
  destruct (pay_send_object this l' o {| heap := <[l' := o]> (heap σ); trace := trace σ |})
    as (t' & Hrun & Hreq); [apply lookup_insert_eq|].
  cbn [heap trace] in Hrun, Hreq. rewrite insert_insert_eq in Hrun.
  exists t'. split; [exact Hrun | exact Hreq].
Qed.

(** [pay] on a string that does not parse: nothing happens. *)
Lemma pay_unparsed (this : CuboClient) (text : string) (σ : state) :
  JSON_parse env text = None ->
  pay env this (inr text) σ
  = (Returned (error_object "Los datos proporcionados no son un JSON válido"), σ).
Proof. intros Hp. unfold pay. now rewrite Hp. Qed.

(** [pay] on a string that parses to something else than an object:
    reading [amount] throws on [null], and any other value is sent as it
    is. *)
Lemma pay_parsed_value (this : CuboClient) (text : string) (v : value) (σ : state) :
  JSON_parse env text = Some v ->
  (forall o, v <> VObject o) ->
  (exists e, pay env this (inr text) σ = (Thrown e, σ)) \/
  (exists t' : list event,
     pay env this (inr text) σ
     = (Returned (pay_reply (network env (requests (trace σ)) (pay_request this v))),
        {| heap := heap σ; trace := t' |}) /\
     requests t' = requests (trace σ) ++ [pay_request this v]).
Proof.
  intros Hp Hv. unfold pay. rewrite Hp.
  assert (Hrun :
    (exists e, pay_send env this (RValue v) σ = (Thrown e, σ)) \/
    (exists t' : list event,
       pay_send env this (RValue v) σ
       = (Returned (pay_reply (network env (requests (trace σ)) (pay_request this v))),
          {| heap := heap σ; trace := t' |}) /\
       requests t' = requests (trace σ) ++ [pay_request this v])).
  { unfold pay_request.
    set (r := {| endpoint := url this +:+ "/api/v1/transactions"; body := v;
                 request_headers := headers this |}).
    destruct v as [| |b|x|s|xs|o]; try (now left; eexists); try (now destruct (Hv o));
      right;
      unfold pay_send, get_field, lift_outcome, try_catch, axios_post;
      unfold mbind, M_bind, mret, M_ret; cbn;
      rewrite !requests_app; cbn; rewrite !app_nil_r; fold r;
      (destruct (network env (requests (trace σ)) r) as [status data|message|message]; cbn;
       [destruct ((200 <=? status)%N && (status <? 300)%N); cbn|..]);
      (eexists; split; [reflexivity|]); rewrite !requests_app; cbn; now rewrite !app_nil_r. }
  destruct v; try exact Hrun. now destruct (Hv fields).
Qed.

End PayFacts.

Lemma object_or_not (v : value) :
  (exists o, v = VObject o) \/ (forall o, v <> VObject o).
Proof. destruct v; try (right; discriminate). left. now eexists. Qed.

Section PayProperties.

Variable env : environment.

Lemma pay_payload (this : CuboClient) (data : loc + string) (o : gmap string value)
    (σ : state) :
  payload env σ data o ->
  let r := pay_request this (VObject (outgoing o)) in
  exists t' : list event,
    pay env this data σ
    = (Returned (pay_reply (network env (requests (trace σ)) r)),
       {| heap := <[fresh (dom (heap σ)) := outgoing o]> (heap σ); trace := t' |}) /\
    requests t' = requests (trace σ) ++ [r].
Proof.
  destruct data as [l|text]; cbn [payload]; intros Hp.
  - now apply pay_object.
  - now apply pay_parsed_object.
Qed.

(** C5: [pay] sends exactly one request, with the payload's fields; a
    finite [amount] with a fractional part is replaced by
    [convertCentv amount], a finite integral [amount] is sent as it is, and
    every other field is sent unmodified.  On the amounts of the
    specification: a payload with [amount: 10.5] is sent with
    [amount: 1050], one with [amount: 100] is sent as it is. *)
Theorem pay_amount_detection (this : CuboClient) (data : loc + string)
    (o : gmap string value) (σ : state) :
  payload env σ data o ->
  exists (sent : gmap string value) (v : outcome value) (σ' : state),
    pay env this data σ = (v, σ') /\
    requests (trace σ') = requests (trace σ) ++ [pay_request this (VObject sent)] /\
    (forall a : number,
       o !! "amount" = Some (VNumber a) ->
       Number.isFinite a = true -> ~ Number.integral a ->
       sent !! "amount" = Some (VNumber (convertCentv a))) /\
    (forall a : number,
       o !! "amount" = Some (VNumber a) -> Number.integral a -> sent = o) /\
    (forall k : string, k <> "amount" -> sent !! k = o !! k) /\
    (o !! "amount" = Some (VNumber amount_10_5) ->
     sent = <["amount" := VNumber (Number.exact false 1050 0)]> o) /\
    (o !! "amount" = Some (VNumber Number.hundred) -> sent = o).
Proof.
  intros Hp. destruct (pay_payload this data o σ Hp) as (t' & Hrun & Hreq).
  exists (outgoing o). eexists. eexists. split; [exact Hrun|].
  split; [exact Hreq|]. unfold outgoing.
  split; [|split; [|split; [|split]]].
  - intros a Ha Hf Hn. rewrite (get_own_present _ _ _ Ha).
    rewrite (converted_amount_fractional a Hf Hn). apply lookup_insert_eq.
  - intros a Ha Hi. rewrite (get_own_present _ _ _ Ha).
    now rewrite (converted_amount_integral a Hi).
  - intros k Hk. destruct (converted_amount _); [|reflexivity].
    now rewrite lookup_insert_ne.
  - intros Ha. now rewrite (get_own_present _ _ _ Ha).
  - intros Ha. now rewrite (get_own_present _ _ _ Ha).
Qed.

(** C6: on a string that does not decode, [pay] returns an object whose
    [error] field reports the invalid JSON; the state is the one it started
    from, so nothing was requested or printed, and nothing is thrown. *)
Theorem pay_invalid_json (this : CuboClient) (text : string) (σ : state) :
  JSON_parse env text = None ->
  pay env this (inr text) σ
  = (Returned (VObject {[ "error" := VString "Los datos proporcionados no son un JSON válido" ]}),
     σ).
Proof. apply pay_unparsed. Qed.

Lemma non_2xx_reply (status : N) (details : value) :
  (status < 200 \/ 300 <= status)%N ->
  pay_reply (Response status details)
  = VObject {[ "error" := VString ("Error del servidor: " +:+ string_of_N status);
               "details" := details ]}.
Proof.
  intros Hs. cbn [pay_reply].
  replace ((200 <=? status)%N && (status <? 300)%N) with false; [reflexivity|].
  symmetry. apply andb_false_iff.
  destruct Hs as [Hs|Hs]; [left; now apply N.leb_gt | right; now apply N.ltb_ge].
Qed.

(** C7 (as amended): when the request that [pay] made is answered with a
    status outside 200..299, [pay] returns
    [{ error: "Error del servidor: <status>", details: <body> }]. *)
Theorem pay_server_error (this : CuboClient) (data : loc + string) (σ σ' : state)
    (v : outcome value) (r : request) (status : N) (details : value) :
  pay env this data σ = (v, σ') ->
  requests (trace σ') = requests (trace σ) ++ [r] ->
  network env (requests (trace σ)) r = Response status details ->
  (status < 200 \/ 300 <= status)%N ->
  v = Returned (VObject {[ "error" := VString ("Error del servidor: " +:+ string_of_N status);
                           "details" := details ]}).
Proof.
  intros Hrun Hreq Hnet Hs.
  assert (Hone : forall (t' : list event) (r0 : request) (h : gmap loc (gmap string value)),
             pay env this data σ
             = (Returned (pay_reply (network env (requests (trace σ)) r0)),
                {| heap := h; trace := t' |}) ->
             requests t' = requests (trace σ) ++ [r0] ->
             v = Returned (VObject {[ "error" := VString ("Error del servidor: "
                                                            +:+ string_of_N status);
                                      "details" := details ]})).
  { intros t' r0 h Hrun' Hreq'. rewrite Hrun in Hrun'. injection Hrun' as Hv Hσ'. subst v σ'.
    cbn [trace] in Hreq. rewrite Hreq' in Hreq.
    apply app_inv_head in Hreq. injection Hreq as Hr. subst r.
    now rewrite Hnet, non_2xx_reply. }
  assert (Hnone : pay env this data σ = (v, σ) -> False).
  { intros Hrun'. rewrite Hrun in Hrun'. injection Hrun' as Hσ'. subst σ'.
    apply (f_equal length) in Hreq. rewrite length_app in Hreq. cbn in Hreq. lia. }
  destruct data as [l|text].
  - destruct (heap σ !! l) as [o|] eqn:Hl.
    + destruct (pay_object env this l o σ Hl) as (t' & Hrun' & Hreq'). eauto.
    + (* a reference always points to an object: the empty one stands in *)
      unfold pay, load, alloc in Hrun.
      unfold mbind at 1 2, M_bind in Hrun. cbn [fst snd heap trace] in Hrun.
      rewrite Hl in Hrun. cbn [default from_option id] in Hrun.
      set (l' := fresh (dom (heap σ))) in *.
      destruct (pay_send_object env this l' ∅
                  {| heap := <[l' := ∅]> (heap σ); trace := trace σ |})
        as (t' & Hrun' & Hreq'); [apply lookup_insert_eq|].
      cbn [heap trace] in Hrun', Hreq'.
      rewrite Hrun in Hrun'. injection Hrun' as Hv Hσ'. subst v σ'.
      cbn [trace] in Hreq. rewrite Hreq' in Hreq.
      apply app_inv_head in Hreq. injection Hreq as Hr. subst r.
      now rewrite Hnet, non_2xx_reply.
  - destruct (JSON_parse env text) as [p|] eqn:Hp.
    + destruct (object_or_not p) as [[o ->]|Hno].
      * destruct (pay_parsed_object env this text o σ Hp) as (t' & Hrun' & Hreq'). eauto.
      * destruct (pay_parsed_value env this text p σ Hp Hno)
          as [[e Hthrow]|(t' & Hrun' & Hreq')]; [|eauto].
        exfalso. apply Hnone. rewrite Hrun in Hthrow. injection Hthrow as Hv Hσ'. subst v σ'.
        exact Hrun.
    + exfalso. apply Hnone. rewrite (pay_unparsed env this text σ Hp) in Hrun.
      injection Hrun as Hv Hσ'. subst v σ'. now apply pay_unparsed.
Qed.

(** C8: after [pay] the caller's object is what it was; the amount
    detection has been applied to a copy, allocated at a fresh address, and
    every object that existed before is untouched. *)
Theorem pay_keeps_caller_object (this : CuboClient) (l : loc) (o : gmap string value)
    (σ : state) :
  heap σ !! l = Some o ->
  exists (v : outcome value) (σ' : state),
    pay env this (inl l) σ = (v, σ') /\
    heap σ' !! l = Some o /\
    (forall l0 : loc, l0 ∈ dom (heap σ) -> heap σ' !! l0 = heap σ !! l0) /\
    (exists l' : loc, (l' ∉ dom (heap σ)) /\ heap σ' = <[l' := outgoing o]> (heap σ)).
Proof.
  intros Hl. destruct (pay_object env this l o σ Hl) as (t' & Hrun & _).
  assert (Hfresh : fresh (dom (heap σ)) ∉ dom (heap σ)) by apply is_fresh.
  assert (Hframe : forall l0 : loc, l0 ∈ dom (heap σ) ->
            <[fresh (dom (heap σ)) := outgoing o]> (heap σ) !! l0 = heap σ !! l0).
  { intros l0 Hin. apply lookup_insert_ne. intros Heq. now rewrite Heq in Hfresh. }
  eexists. eexists. split; [exact Hrun|]. cbn [heap]. split; [|split].
  - rewrite Hframe; [exact Hl|]. apply elem_of_dom. now exists o.
  - exact Hframe.
  - exists (fresh (dom (heap σ))). now split.
Qed.

End PayProperties.

(** ** [testMultipleUrls] *)

Section ProbeProperties.

Variable env : environment.




End ProbeProperties.

(** ** The properties on the test driver's data *)

(** [amount: 10.5] is sent as [amount: 1050], [amount: 100] as it is. *)
Example pay_sends_1050 :
  requests (trace (pay Example.env Example.client (inl 1%positive) Example.initial).2)
  = [pay_request Example.client
       (VObject (Example.paymentData (Number.exact false 1050 0)))] /\
  requests (trace (pay Example.env Example.client (inl 2%positive) Example.initial).2)
  = [pay_request Example.client (VObject (Example.paymentData Number.hundred))].
Proof. split; vm_compute; reflexivity. Qed.

Lemma pay_amount_detection_witness :
  exists (sent : gmap string value) (v : outcome value) (σ' : state),
    pay Example.env Example.client (inl 1%positive) Example.initial = (v, σ') /\
    requests (trace σ')
    = requests (trace Example.initial) ++ [pay_request Example.client (VObject sent)] /\
    (forall a : number,
       Example.paymentData amount_10_5 !! "amount" = Some (VNumber a) ->
       Number.isFinite a = true -> ~ Number.integral a ->
       sent !! "amount" = Some (VNumber (convertCentv a))) /\
    (forall a : number,
       Example.paymentData amount_10_5 !! "amount" = Some (VNumber a) ->
       Number.integral a -> sent = Example.paymentData amount_10_5) /\
    (forall k : string,
       k <> "amount" -> sent !! k = Example.paymentData amount_10_5 !! k) /\
    sent = Example.paymentData (Number.exact false 1050 0).
Proof.
  destruct (pay_amount_detection Example.env Example.client (inl 1%positive)
              (Example.paymentData amount_10_5) Example.initial eq_refl)
    as (sent & v & σ' & Hrun & Hreq & Hfrac & Hint & Hrest & H1050 & _).
  exists sent, v, σ'.
  split; [exact Hrun|]. split; [exact Hreq|]. split; [exact Hfrac|].
  split; [exact Hint|]. split; [exact Hrest|].
  rewrite (H1050 eq_refl). vm_compute. reflexivity.
Defined.

Lemma pay_invalid_json_witness :
  pay Example.env Example.client (inr "not json"%string) Example.initial
  = (Returned (VObject {[ "error" := VString "Los datos proporcionados no son un JSON válido" ]}),
     Example.initial).
Proof.
  exact (pay_invalid_json Example.env Example.client "not json" Example.initial eq_refl).
Defined.

Lemma pay_server_error_witness :
  (pay Example.env Example.client3 (inl 1%positive) Example.initial).1
  = Returned (VObject {[ "error" := VString "Error del servidor: 500";
                         "details" := Example.declined ]}).
Proof.
  apply (pay_server_error Example.env Example.client3 (inl 1%positive) Example.initial
           (pay Example.env Example.client3 (inl 1%positive) Example.initial).2
           (pay Example.env Example.client3 (inl 1%positive) Example.initial).1
           (pay_request Example.client3
              (VObject (Example.paymentData (Number.exact false 1050 0))))
           500 Example.declined).
  - now destruct (pay _ _ _ _).
  - vm_compute. reflexivity.
  - reflexivity.
  - right. lia.
Defined.

(** C7 as stated fails: the text before the status code is
    ["Error del servidor: "], not ["Server error: "]. *)
Lemma pay_server_error_text :
  network Example.env []
    (pay_request Example.client3 (VObject (Example.paymentData (Number.exact false 1050 0))))
  = Response 500 Example.declined /\
  (pay Example.env Example.client3 (inl 1%positive) Example.initial).1
  = Returned (VObject {[ "error" := VString "Error del servidor: 500";
                         "details" := Example.declined ]}) /\
  (pay Example.env Example.client3 (inl 1%positive) Example.initial).1
  <> Returned (VObject {[ "error" := VString "Server error: 500";
                          "details" := Example.declined ]}).
Proof.
  split; [reflexivity|]. split; [vm_compute; reflexivity|].
  intros H.
  apply (f_equal (fun o => match o with
                           | Returned (VObject r) => r !! "error"
                           | _ => None
                           end)) in H.
  vm_compute in H. discriminate H.
Qed.

Lemma pay_keeps_caller_object_witness :
  exists (v : outcome value) (σ' : state),
    pay Example.env Example.client (inl 1%positive) Example.initial = (v, σ') /\
    heap σ' !! 1%positive = Some (Example.paymentData amount_10_5) /\
    (forall l0 : loc, l0 ∈ dom (heap Example.initial) -> heap σ' !! l0 = heap Example.initial !! l0) /\
    (exists l' : loc,
       (l' ∉ dom (heap Example.initial)) /\
       heap σ' = <[l' := outgoing (Example.paymentData amount_10_5)]> (heap Example.initial)).
Proof.
  exact (pay_keeps_caller_object Example.env Example.client 1%positive
           (Example.paymentData amount_10_5) Example.initial eq_refl).
Defined.

(** A probe of three hosts: the first answers [null], on which
    [handleResponse] throws; the second accepts; the third answers 500. *)
Example testMultipleUrls_three_hosts :
  (testMultipleUrls Example.env Example.client 2%positive
     ["https://api.cubo.com"; "https://api.cubopago.com"; "https://cubopago.com"]%string
     Example.initial).1
  = Returned
      [ {| TestResult.url := "https://api.cubo.com";
           TestResult.response := None;
           TestResult.result := None;
           TestResult.error := Some "Cannot read properties of null (reading 'error')"%string |};
        {| TestResult.url := "https://api.cubopago.com";
           TestResult.response := Some Example.succeeded;
           TestResult.result :=
             Some (VObject {[ "success" := VBool true;
                              "reference_id" := VString "r1";
                              "authorization_code" := VString "a1";
                              "processed_at" := VString "t1" ]});
           TestResult.error := None |};
        {| TestResult.url := "https://cubopago.com";
           TestResult.response :=
             Some (VObject {[ "error" := VString "Error del servidor: 500";
                              "details" := Example.declined ]});
           TestResult.result :=
             Some (VObject {[ "success" := VBool false;
                              "message" := VString "Error del servidor: 500" ]});
           TestResult.error := None |} ].
Proof. vm_compute. reflexivity. Qed.


(** * Further properties *)

(** ** Every run of [pay] *)

Lemma pauses_app (t1 t2 : list event) :
  pauses (t1 ++ t2) = pauses t1 ++ pauses t2.
Proof. apply omap_app. Qed.

Section PayRuns.

Variable env : environment.

(** [pay] once [paymentData] refers to an object with fields [o]: the
    events are console output and one request. *)
Lemma pay_send_object_events (this : CuboClient) (l : loc) (o : gmap string value)
    (σ : state) :
  heap σ !! l = Some o ->
  let r := pay_request this (VObject (outgoing o)) in
  exists evs : list event,
    pay_send env this (RObject l) σ
    = (Returned (pay_reply (network env (requests (trace σ)) r)),
       {| heap := <[l := outgoing o]> (heap σ); trace := trace σ ++ evs |}) /\
    requests evs = [r] /\ pauses evs = [].
Proof.
  intros Hl r. unfold pay_request in r.
  assert (Hstep :
    (match converted_amount (get_own o "amount") with
     | Some cents => store l "amount" cents
     | None => mret ()
     end) σ = (Returned (), {| heap := <[l := outgoing o]> (heap σ); trace := trace σ |})).
  { unfold outgoing. destruct (converted_amount _) as [cents|].
    - unfold store. now rewrite (alter_present _ _ _ _ Hl).
    - rewrite (insert_id _ _ _ Hl). now destruct σ. }
  unfold pay_send, get_field, load.
  unfold mbind, M_bind, mret, M_ret. cbn. rewrite Hl. cbn.
  unfold mret, M_ret in Hstep. rewrite Hstep.
  unfold try_catch, load, mbind, M_bind, mret, M_ret, axios_post. cbn.
  rewrite lookup_insert_eq. cbn.
  rewrite !requests_app. cbn. rewrite !app_nil_r.
  fold r.
  destruct (network env (requests (trace σ)) r) as [status data|message|message]; cbn;
    [destruct ((200 <=? status)%N && (status <? 300)%N); cbn|..];
    rewrite <- !app_assoc; cbn [app];
    (eexists; split; [reflexivity|]); split; reflexivity.
Qed.

(** [pay] once [paymentData] is a value that is not an object. *)
Lemma pay_send_value_events (this : CuboClient) (v : value) (σ : state) :
  (forall o, v <> VObject o) ->
  (exists message, (v = VNull \/ v = VUndefined) /\
     pay_send env this (RValue v) σ = (Thrown (TypeError message), σ)) \/
  (v <> VNull /\ v <> VUndefined /\
   exists evs : list event,
     pay_send env this (RValue v) σ
     = (Returned (pay_reply (network env (requests (trace σ)) (pay_request this v))),
        {| heap := heap σ; trace := trace σ ++ evs |}) /\
     requests evs = [pay_request this v] /\ pauses evs = []).
Proof.
  intros Hv. unfold pay_request.
  set (r := {| endpoint := url this +:+ "/api/v1/transactions"; body := v;
               request_headers := headers this |}).
  destruct v as [| |b|x|s|xs|o];
    try (left; eexists; split; [auto|reflexivity]); try (now destruct (Hv o));
    right; (split; [discriminate|]); (split; [discriminate|]);
    unfold pay_send, get_field, lift_outcome, try_catch, axios_post;
    unfold mbind, M_bind, mret, M_ret; cbn;
    rewrite !requests_app; cbn; rewrite !app_nil_r; fold r;
    (destruct (network env (requests (trace σ)) r) as [status data|message|message]; cbn;
     [destruct ((200 <=? status)%N && (status <? 300)%N); cbn|..]);
    rewrite <- !app_assoc; cbn [app];
    (eexists; split; [reflexivity|]); split; reflexivity.
Qed.

(** The three ways a call of [pay] can go: the text does not decode; it
    decodes to [null]; or one request is made and its answer is turned into
    the result. *)
Lemma pay_cases (this : CuboClient) (data : loc + string) (σ : state) :
  (exists text,
     data = inr text /\ JSON_parse env text = None /\
     pay env this data σ
     = (Returned (error_object "Los datos proporcionados no son un JSON válido"), σ)) \/
  (exists text p message,
     data = inr text /\ JSON_parse env text = Some p /\ (p = VNull \/ p = VUndefined) /\
     pay env this data σ = (Thrown (TypeError message), σ)) \/
  (exists (body : value) (evs : list event) (h' : gmap loc (gmap string value)),
     pay env this data σ
     = (Returned (pay_reply (network env (requests (trace σ)) (pay_request this body))),
        {| heap := h'; trace := trace σ ++ evs |}) /\
     requests evs = [pay_request this body] /\ pauses evs = [] /\
     (forall l0 : loc, l0 ∈ dom (heap σ) -> h' !! l0 = heap σ !! l0) /\
     (forall l, data = inl l -> body = VObject (outgoing (default ∅ (heap σ !! l)))) /\
     (forall text, data = inr text ->
        exists p, JSON_parse env text = Some p /\ p <> VNull /\ p <> VUndefined /\
                  body = match p with VObject o => VObject (outgoing o) | _ => p end /\
                  ((forall o, p <> VObject o) -> h' = heap σ))).
Proof.
  assert (Hcopy : forall o : gmap string value,
    exists evs : list event,
      (paymentData ← alloc o; pay_send env this (RObject paymentData)) σ
      = (Returned (pay_reply (network env (requests (trace σ))
                                (pay_request this (VObject (outgoing o))))),
         {| heap := <[fresh (dom (heap σ)) := outgoing o]> (heap σ);
            trace := trace σ ++ evs |}) /\
      requests evs = [pay_request this (VObject (outgoing o))] /\ pauses evs = []).
  { intros o. unfold alloc. unfold mbind at 1, M_bind. cbn [fst snd heap trace].
    set (l' := fresh (dom (heap σ))).
    destruct (pay_send_object_events this l' o
                {| heap := <[l' := o]> (heap σ); trace := trace σ |})
      as (evs & Hrun & Hreq & Hp); [apply lookup_insert_eq|].
    cbn [heap trace] in Hrun. rewrite insert_insert_eq in Hrun.
    exists evs. now repeat split. }
  assert (Hframe : forall (o : gmap string value) (l0 : loc),
            l0 ∈ dom (heap σ) ->
            <[fresh (dom (heap σ)) := o]> (heap σ) !! l0 = heap σ !! l0).
  { intros o l0 Hin. apply lookup_insert_ne. intros Heq.
    apply (is_fresh (dom (heap σ))). now rewrite Heq. }
  destruct data as [l|text].
  - right. right.
    destruct (Hcopy (default ∅ (heap σ !! l))) as (evs & Hrun & Hreq & Hp).
    eexists. exists evs. eexists. split.
    { unfold pay, load. unfold mbind at 1, M_bind. cbn [fst snd]. exact Hrun. }
    split; [exact Hreq|]. split; [exact Hp|]. split; [apply Hframe|].
    split; [now intros l1 [= <-] | intros text' [=]].
  - destruct (JSON_parse env text) as [p|] eqn:Hparse.
    + destruct (object_or_not p) as [[o ->]|Hno].
      * right. right. destruct (Hcopy o) as (evs & Hrun & Hreq & Hp).
        eexists. exists evs. eexists. split.
        { unfold pay. rewrite Hparse. exact Hrun. }
        split; [exact Hreq|]. split; [exact Hp|]. split; [apply Hframe|].
        split; [intros l [=]|]. intros text' [= <-]. exists (VObject o).
        rewrite Hparse. repeat split; try discriminate.
        intros Hn. now destruct (Hn o).
      * destruct (pay_send_value_events this p σ Hno)
          as [(message & Hnull & Hrun)|(Hn1 & Hn2 & evs & Hrun & Hreq & Hp)].
        -- right. left. exists text, p, message. repeat split; try assumption.
           unfold pay. rewrite Hparse. destruct p; try exact Hrun. now destruct (Hno fields).
        -- right. right. exists p, evs, (heap σ). split.
           { unfold pay. rewrite Hparse. destruct p; try exact Hrun. now destruct (Hno fields). }
           split; [exact Hreq|]. split; [exact Hp|]. split; [reflexivity|].
           split; [intros l [=]|]. intros text' [= <-]. exists p.
           rewrite Hparse. repeat split; try assumption.
           destruct p; try reflexivity. now destruct (Hno fields).
    + left. exists text. split; [reflexivity|]. split; [exact Hparse|].
      unfold pay. now rewrite Hparse.
Qed.

End PayRuns.

Section PayExtras.

Variable env : environment.

(** The result of [pay] is the reply to the request it made. *)
Lemma pay_result_of_request (this : CuboClient) (data : loc + string) (σ σ' : state)
    (v : outcome value) (r : request) :
  pay env this data σ = (v, σ') ->
  requests (trace σ') = requests (trace σ) ++ [r] ->
  v = Returned (pay_reply (network env (requests (trace σ)) r)).
Proof.
  intros Hrun Hreq.
  assert (Hnone : σ' = σ -> False).
  { intros ->. apply (f_equal length) in Hreq. rewrite length_app in Hreq.
    cbn in Hreq. lia. }
  destruct (pay_cases env this data σ)
    as [(text & _ & _ & Hp)|[(text & p & message & _ & _ & _ & Hp)
                            |(body & evs & h' & Hp & Hr & _)]];
    rewrite Hrun in Hp; injection Hp as Hv Hσ'.
  - now destruct (Hnone Hσ').
  - now destruct (Hnone Hσ').
  - subst v σ'. cbn [trace] in Hreq. rewrite requests_app, Hr in Hreq.
    apply app_inv_head in Hreq. injection Hreq as Hreq. now rewrite Hreq.
Qed.

(** X1: when the request that [pay] made is answered with a status in
    200..299, [pay] returns the body of the answer as it is. *)
Theorem pay_success_verbatim (this : CuboClient) (data : loc + string) (σ σ' : state)
    (v : outcome value) (r : request) (status : N) (data' : value) :
  pay env this data σ = (v, σ') ->
  requests (trace σ') = requests (trace σ) ++ [r] ->
  network env (requests (trace σ)) r = Response status data' ->
  (200 <= status < 300)%N ->
  v = Returned data'.
Proof.
  intros Hrun Hreq Hnet [Hlo Hhi].
  rewrite (pay_result_of_request this data σ σ' v r Hrun Hreq), Hnet. cbn [pay_reply].
  apply N.leb_le in Hlo. apply N.ltb_lt in Hhi. now rewrite Hlo, Hhi.
Qed.

(** X2: when the request that [pay] made gets no answer, [pay] returns
    [{ error: "No se recibió respuesta del servidor" }]. *)
Theorem pay_no_response (this : CuboClient) (data : loc + string) (σ σ' : state)
    (v : outcome value) (r : request) (message : string) :
  pay env this data σ = (v, σ') ->
  requests (trace σ') = requests (trace σ) ++ [r] ->
  network env (requests (trace σ)) r = NoResponse message ->
  v = Returned (VObject {[ "error" := VString "No se recibió respuesta del servidor" ]}).
Proof.
  intros Hrun Hreq Hnet.
  now rewrite (pay_result_of_request this data σ σ' v r Hrun Hreq), Hnet.
Qed.

(** X3: when the request could not be sent, [pay] returns
    [{ error: "Error de conexión: <message>" }] with the message of the
    failure. *)
Theorem pay_not_sent (this : CuboClient) (data : loc + string) (σ σ' : state)
    (v : outcome value) (r : request) (message : string) :
  pay env this data σ = (v, σ') ->
  requests (trace σ') = requests (trace σ) ++ [r] ->
  network env (requests (trace σ)) r = NotSent message ->
  v = Returned (VObject {[ "error" := VString ("Error de conexión: " +:+ message) ]}).
Proof.
  intros Hrun Hreq Hnet.
  now rewrite (pay_result_of_request this data σ σ' v r Hrun Hreq), Hnet.
Qed.

(** X4: an exception escapes [pay] exactly when its argument is a string
    that decodes to [null] (or [undefined]); on the caller's object, and on
    every other string, [pay] returns. *)
Theorem pay_throws_iff (this : CuboClient) (data : loc + string) (σ : state) :
  (exists (e : exn) (σ' : state), pay env this data σ = (Thrown e, σ')) <->
  (exists text : string,
     data = inr text /\
     (JSON_parse env text = Some VNull \/ JSON_parse env text = Some VUndefined)).
Proof.
  split.
  - intros (e & σ' & Hrun).
    destruct (pay_cases env this data σ)
      as [(text & _ & _ & Hp)|[(text & p & message & Hd & Hparse & Hnull & Hp)
                              |(body & evs & h' & Hp & _)]];
      rewrite Hrun in Hp; try discriminate Hp.
    exists text. split; [exact Hd|]. destruct Hnull as [-> | ->]; auto.
  - intros (text & -> & Hparse). exists (TypeError
      (match JSON_parse env text with
       | Some VUndefined => "Cannot read properties of undefined (reading 'amount')"
       | _ => "Cannot read properties of null (reading 'amount')"
       end)), σ.
    unfold pay. destruct Hparse as [-> | ->]; reflexivity.
Qed.

(** X5: on a string that decodes to [null], [pay] throws the [TypeError] of
    reading [amount] from [null], in the state it started from: no request
    is made and nothing is printed. *)
Theorem pay_null_text (this : CuboClient) (text : string) (σ : state) :
  JSON_parse env text = Some VNull ->
  pay env this (inr text) σ
  = (Thrown (TypeError "Cannot read properties of null (reading 'amount')"), σ).
Proof. intros Hp. unfold pay. now rewrite Hp. Qed.

(** X6: a string that decodes to a number, a string, a boolean or an array
    is posted as it is: one request with that value as body, and no object
    is created. *)
Theorem pay_parsed_primitive (this : CuboClient) (text : string) (p : value) (σ : state) :
  JSON_parse env text = Some p ->
  p <> VNull -> p <> VUndefined -> (forall o, p <> VObject o) ->
  exists (v : value) (σ' : state),
    pay env this (inr text) σ = (Returned v, σ') /\
    requests (trace σ') = requests (trace σ) ++ [pay_request this p] /\
    heap σ' = heap σ.
Proof.
  intros Hparse Hn1 Hn2 Hno.
  destruct (pay_cases env this (inr text) σ)
    as [(text' & [= <-] & Hnone & _)|[(text' & p' & message & [= <-] & Hp' & Hnull & _)
                            |(body & evs & h' & Hp & Hr & _ & _ & _ & Hbody)]].
  - congruence.
  - rewrite Hparse in Hp'. injection Hp' as <-. now destruct Hnull.
  - destruct (Hbody text eq_refl) as (p' & Hp' & _ & _ & Hb & Hh).
    rewrite Hparse in Hp'. injection Hp' as <-.
    assert (body = p) as -> by (destruct p; try exact Hb; now destruct (Hno fields)).
    rewrite (Hh Hno) in Hp. eexists. eexists. split; [exact Hp|].
    cbn [heap trace]. now rewrite requests_app, Hr.
Qed.

Lemma outgoing_unchanged (o : gmap string value) :
  (forall a : number, o !! "amount" = Some (VNumber a) -> Number.isFinite a = false) ->
  outgoing o = o.
Proof.
  intros Ha. unfold outgoing, get_own.
  destruct (o !! "amount") as [[| | |a| | |]|]; try reflexivity.
  cbn. now rewrite (Ha a eq_refl).
Qed.

(** X7: an [amount] that is missing or is not a finite number (a string,
    [null], [NaN], an infinity) is not touched: the payload is sent as it
    is. *)
Theorem pay_amount_left_alone (this : CuboClient) (data : loc + string)
    (o : gmap string value) (σ : state) :
  payload env σ data o ->
  (forall a : number, o !! "amount" = Some (VNumber a) -> Number.isFinite a = false) ->
  exists (v : outcome value) (σ' : state),
    pay env this data σ = (v, σ') /\
    requests (trace σ') = requests (trace σ) ++ [pay_request this (VObject o)].
Proof.
  intros Hp Ha. destruct (pay_payload env this data o σ Hp) as (t' & Hrun & Hreq).
  rewrite (outgoing_unchanged o Ha) in Hrun, Hreq.
  eexists. eexists. split; [exact Hrun | exact Hreq].
Qed.

(** X8: a client built by the constructor makes at most one request per
    call of [pay]; it goes to [<url>/api/v1/transactions], [url] being the
    constructor's argument or ["https://api.cubo.com"] without one, and
    carries exactly the headers [X-API-KEY], the key, and [Content-Type],
    ["application/json"]. *)
Theorem pay_request_shape (key : string) (base : option string) (data : loc + string)
    (σ σ' : state) (v : outcome value) :
  pay env (new_CuboClient key base) data σ = (v, σ') ->
  exists rs : list request,
    requests (trace σ') = requests (trace σ) ++ rs /\
    (length rs <= 1)%nat /\
    forall r : request, r ∈ rs ->
      endpoint r = default "https://api.cubo.com" base +:+ "/api/v1/transactions" /\
      request_headers r = {[ "X-API-KEY" := key; "Content-Type" := "application/json" ]}.
Proof.
  intros Hrun.
  destruct (pay_cases env (new_CuboClient key base) data σ)
    as [(text & _ & _ & Hp)|[(text & p & message & _ & _ & _ & Hp)
                            |(body & evs & h' & Hp & Hr & _)]];
    rewrite Hrun in Hp; injection Hp as Hv Hσ'; subst σ'.
  - exists []. rewrite app_nil_r. split; [reflexivity|]. split; [cbn; lia|].
    intros r Hin. now apply elem_of_nil in Hin.
  - exists []. rewrite app_nil_r. split; [reflexivity|]. split; [cbn; lia|].
    intros r Hin. now apply elem_of_nil in Hin.
  - exists [pay_request (new_CuboClient key base) body]. cbn [trace].
    rewrite requests_app, Hr. split; [reflexivity|]. split; [cbn; lia|].
    intros r Hin. apply list_elem_of_singleton in Hin. subst r. split; reflexivity.
Qed.

(** X9: whatever its argument, [pay] never pauses, only adds to the trace,
    and leaves every object that existed as it was. *)
Theorem pay_frame (this : CuboClient) (data : loc + string) (σ σ' : state)
    (v : outcome value) :
  pay env this data σ = (v, σ') ->
  pauses (trace σ') = pauses (trace σ) /\
  (exists evs : list event, trace σ' = trace σ ++ evs) /\
  (forall l0 : loc, l0 ∈ dom (heap σ) -> heap σ' !! l0 = heap σ !! l0).
Proof.
  intros Hrun.
  destruct (pay_cases env this data σ)
    as [(text & _ & _ & Hp)|[(text & p & message & _ & _ & _ & Hp)
                            |(body & evs & h' & Hp & _ & Hpause & Hframe & _)]];
    rewrite Hrun in Hp; injection Hp as Hv Hσ'; subst σ'.
  - repeat split. exists []. now rewrite app_nil_r.
  - repeat split. exists []. now rewrite app_nil_r.
  - cbn [heap trace]. split; [|split].
    + now rewrite pauses_app, Hpause, app_nil_r.
    + now exists evs.
    + exact Hframe.
Qed.

End PayExtras.


(** ** Every result of [handleResponse] *)

(** X10: [handleResponse] throws exactly on [null] and [undefined], with the
    [TypeError] of reading [error] from them; on every other value it
    returns. *)
Theorem handleResponse_throws_iff (response : value) :
  (exists e : exn, handleResponse response = Thrown e) <->
  (response = VNull \/ response = VUndefined).
Proof.
  split.
  - intros [e He]. destruct response as [| |b|x|s|xs|fields]; auto;
      try (cbn in He; discriminate He).
    unfold handleResponse in He. cbn in He.
    destruct (truthy _); [discriminate He|].
    destruct (strict_eq_string _ _); discriminate He.
  - intros [-> | ->]; eexists; reflexivity.
Qed.

(** X11: a response that is not an object (a string, a number, a boolean,
    an array), as a 2xx answer without JSON body gives, is reported as
    [{ success: false, message: "Error desconocido" }]. *)
Theorem handleResponse_not_an_object (response : value) :
  response <> VNull -> response <> VUndefined ->
  (forall fields, response <> VObject fields) ->
  handleResponse response
  = Returned (VObject {[ "success" := VBool false;
                         "message" := VString "Error desconocido" ]}).
Proof.
  intros Hn Hu Ho. destruct response as [| |b|x|s|xs|fields];
    try reflexivity; try contradiction. now destruct (Ho fields).
Qed.

(** X12: on an object, [handleResponse] reports success exactly when the
    [error] field is falsy (or missing) and [status] is the string
    ["SUCCEEDED"]. *)
Theorem handleResponse_success_iff (fields : gmap string value) :
  exists (result : gmap string value) (success : bool),
    handleResponse (VObject fields) = Returned (VObject result) /\
    result !! "success" = Some (VBool success) /\
    (success = true <->
     truthy (get_own fields "error") = false /\
     get_own fields "status" = VString "SUCCEEDED").
Proof.
  unfold handleResponse. cbn.
  destruct (truthy (get_own fields "error")) eqn:He.
  - eexists. exists false. split; [reflexivity|]. split; [reflexivity|].
    split; [discriminate | now intros [? _]].
  - destruct (strict_eq_string (get_own fields "status") "SUCCEEDED") eqn:Hs.
    + eexists. exists true. split; [reflexivity|]. split; [reflexivity|].
      apply strict_eq_string_true in Hs. now split.
    + eexists. exists false. split; [reflexivity|]. split; [reflexivity|].
      split; [discriminate|]. intros [_ Hst].
      apply strict_eq_string_true in Hst. congruence.
Qed.

(** X13: a result of [handleResponse] has one of two shapes.  A success has
    the keys [success], [reference_id], [authorization_code] and
    [processed_at] and no [message]; a failure has the keys [success] and
    [message] only, and its message is truthy (never empty). *)
Theorem handleResponse_shape (response result : value) :
  handleResponse response = Returned result ->
  exists fields : gmap string value,
    result = VObject fields /\
    ((fields !! "success" = Some (VBool true) /\
      dom fields = {[ "success"; "reference_id"; "authorization_code"; "processed_at" ]})
     \/
     (fields !! "success" = Some (VBool false) /\
      dom fields = {[ "success"; "message" ]} /\
      exists message : value,
        fields !! "message" = Some message /\ truthy message = true)).
Proof.
  assert (Hfail : forall message : value,
            truthy message = true ->
            let fields : gmap string value :=
              {[ "success" := VBool false; "message" := message ]} in
            fields !! "success" = Some (VBool false) /\
            dom fields = {[ "success"; "message" ]} /\
            exists m, fields !! "message" = Some m /\ truthy m = true).
  { intros message Hm fields. split; [reflexivity|]. split.
    - unfold fields. rewrite dom_insert_L, dom_singleton_L. reflexivity.
    - exists message. split; [reflexivity | exact Hm]. }
  intros Hr.
  assert (Hcases :
    (exists message, truthy message = true /\
       result = VObject {[ "success" := VBool false; "message" := message ]}) \/
    (exists a b c, result = VObject {[ "success" := VBool true; "reference_id" := a;
                                       "authorization_code" := b; "processed_at" := c ]})).
  { destruct response as [| |b|x|s|xs|o]; cbn in Hr; try discriminate Hr;
      try (injection Hr as <-; left; eexists; split; [|reflexivity]; reflexivity).
    unfold handleResponse in Hr. cbn in Hr.
    destruct (truthy (get_own o "error")) eqn:He.
    - injection Hr as <-. left. eexists. split; [exact He | reflexivity].
    - destruct (strict_eq_string _ _).
      + injection Hr as <-. right. now do 3 eexists.
      + injection Hr as <-. left.
        destruct (truthy (get_own o "message")) eqn:Hm;
          eexists; (split; [|reflexivity]); [exact Hm | reflexivity]. }
  destruct Hcases as [(message & Hm & ->)|(a & b & c & ->)].
  - eexists. split; [reflexivity|]. right. now apply Hfail.
  - eexists. split; [reflexivity|]. left. split; [reflexivity|].
    rewrite !dom_insert_L, dom_singleton_L. reflexivity.
Qed.

(** ** [pay] followed by [handleResponse], and [pay] repeated *)

Section PayThenHandle.

Variable env : environment.

(** X14: whenever the request of [pay] fails (an answer outside 200..299, no
    answer, or a request that could not be sent), [handleResponse] turns
    what [pay] returns into [{ success: false, message }], the message being
    the text of [pay]'s [error] field: ["Error del servidor: <status>"],
    ["No se recibió respuesta del servidor"] or
    ["Error de conexión: <message>"]. *)
Theorem pay_failure_normalised (this : CuboClient) (data : loc + string)
    (o : gmap string value) (σ : state) (t : transport) :
  payload env σ data o ->
  network env (requests (trace σ)) (pay_request this (VObject (outgoing o))) = t ->
  (forall status body, t = Response status body -> (status < 200 \/ 300 <= status)%N) ->
  exists (response : value) (σ' : state),
    pay env this data σ = (Returned response, σ') /\
    get_prop response "error" = Returned (VString (transport_error t)) /\
    handleResponse response
    = Returned (VObject {[ "success" := VBool false;
                           "message" := VString (transport_error t) ]}).
Proof.
  intros Hp Hnet Ht. destruct (pay_payload env this data o σ Hp) as (t' & Hrun & _).
  rewrite Hnet in Hrun. eexists. eexists. split; [exact Hrun|].
  destruct t as [status body|message|message].
  - rewrite (non_2xx_reply status body (Ht status body eq_refl)).
    split; reflexivity.
  - split; reflexivity.
  - split; reflexivity.
Qed.

(** X15: [pay] on a string that does not decode, followed by
    [handleResponse], gives [{ success: false, message: "Los datos
    proporcionados no son un JSON válido" }]. *)
Theorem pay_invalid_json_normalised (this : CuboClient) (text : string) (σ : state) :
  JSON_parse env text = None ->
  exists response : value,
    pay env this (inr text) σ = (Returned response, σ) /\
    handleResponse response
    = Returned (VObject {[ "success" := VBool false;
                           "message" := VString "Los datos proporcionados no son un JSON válido" ]}).
Proof.
  intros Hparse. eexists. split; [now apply pay_unparsed|]. reflexivity.
Qed.

(** X16: when the request of [pay] is answered in 200..299 with an object
    that has no [error] field and [status: "SUCCEEDED"], [handleResponse]
    turns what [pay] returns into the success result with the answer's
    [referenceId], [authorizationCode] and [processedAt]. *)
Theorem pay_success_normalised (this : CuboClient) (data : loc + string)
    (o : gmap string value) (σ : state) (status : N) (fields : gmap string value) :
  payload env σ data o ->
  network env (requests (trace σ)) (pay_request this (VObject (outgoing o)))
  = Response status (VObject fields) ->
  (200 <= status < 300)%N ->
  fields !! "error" = None ->
  fields !! "status" = Some (VString "SUCCEEDED") ->
  exists (response : value) (σ' : state),
    pay env this data σ = (Returned response, σ') /\
    handleResponse response
    = Returned (VObject {[ "success" := VBool true;
                           "reference_id" := get_own fields "referenceId";
                           "authorization_code" := get_own fields "authorizationCode";
                           "processed_at" := get_own fields "processedAt" ]}).
Proof.
  intros Hp Hnet [Hlo Hhi] He Hs.
  destruct (pay_payload env this data o σ Hp) as (t' & Hrun & _).
  rewrite Hnet in Hrun. cbn [pay_reply] in Hrun.
  apply N.leb_le in Hlo. apply N.ltb_lt in Hhi. rewrite Hlo, Hhi in Hrun. cbn in Hrun.
  eexists. eexists. split; [exact Hrun|].
  unfold handleResponse. cbn.
  now rewrite (get_own_absent _ _ He), (get_own_present _ _ _ Hs).
Qed.

(** X17: [pay] can be repeated on the same object: since the caller's
    object is not changed, a second call sends the same request (endpoint,
    body with the same converted amount, headers) as the first. *)
Theorem pay_twice_same_request (this : CuboClient) (l : loc) (o : gmap string value)
    (σ σ1 σ2 : state) (v1 v2 : outcome value) :
  heap σ !! l = Some o ->
  pay env this (inl l) σ = (v1, σ1) ->
  pay env this (inl l) σ1 = (v2, σ2) ->
  exists r : request,
    requests (trace σ2) = requests (trace σ) ++ [r; r] /\
    heap σ2 !! l = Some o.
Proof.
  intros Hl Hrun1 Hrun2.
  assert (Hkeep : forall (s s' : state) (v : outcome value),
            heap s !! l = Some o -> pay env this (inl l) s = (v, s') ->
            heap s' !! l = Some o /\
            requests (trace s')
            = requests (trace s) ++ [pay_request this (VObject (outgoing o))]).
  { intros s s' v Hs Hrun.
    destruct (pay_object env this l o s Hs) as (t' & Hrun' & Hreq).
    rewrite Hrun in Hrun'. injection Hrun' as _ ->. cbn [heap trace]. split; [|exact Hreq].
    rewrite lookup_insert_ne; [exact Hs|]. intros Heq.
    apply (is_fresh (dom (heap s))). rewrite Heq. apply elem_of_dom. now exists o. }
  destruct (Hkeep σ σ1 v1 Hl Hrun1) as [Hl1 Hreq1].
  destruct (Hkeep σ1 σ2 v2 Hl1 Hrun2) as [Hl2 Hreq2].
  exists (pay_request this (VObject (outgoing o))). split; [|exact Hl2].
  now rewrite Hreq2, Hreq1, <- app_assoc.
Qed.

End PayThenHandle.

(** ** Every run of [testMultipleUrls] *)

Section ProbeRuns.

Variable env : environment.

Lemma pay_object_events (this : CuboClient) (l : loc) (o : gmap string value) (σ : state) :
  heap σ !! l = Some o ->
  let r := pay_request this (VObject (outgoing o)) in
  exists evs : list event,
    pay env this (inl l) σ
    = (Returned (pay_reply (network env (requests (trace σ)) r)),
       {| heap := <[fresh (dom (heap σ)) := outgoing o]> (heap σ);
          trace := trace σ ++ evs |}) /\
    requests evs = [r] /\ pauses evs = [].
Proof.
  intros Hl r. unfold pay, load, alloc.
  unfold mbind at 1 2, M_bind. cbn [fst snd heap trace]. rewrite Hl. cbn [default from_option id].
  set (l' := fresh (dom (heap σ))).
  destruct (pay_send_object_events env this l' o
              {| heap := <[l' := o]> (heap σ); trace := trace σ |})
    as (evs & Hrun & Hreq & Hp); [apply lookup_insert_eq|].
  cbn [heap trace] in Hrun. rewrite insert_insert_eq in Hrun.
  exists evs. now repeat split.
Qed.

Lemma testMultipleUrls_loop_events (this : CuboClient) (data : loc)
    (o : gmap string value) (urls : list string) :
  forall (results : list TestResult.t) (σ : state),
    heap σ !! data = Some o ->
    exists (σ' : state) (evs : list event),
      testMultipleUrls_loop env this data urls results σ
      = (Returned (results ++ probe_outcomes env (apiKey this) (VObject (outgoing o))
                                (requests (trace σ)) urls), σ') /\
      trace σ' = trace σ ++ evs /\
      requests evs = map (probe_request (apiKey this) (VObject (outgoing o))) urls /\
      pauses evs = replicate (length urls) 1000 /\
      (forall l0 : loc, l0 ∈ dom (heap σ) -> heap σ' !! l0 = heap σ !! l0).
Proof.
  induction urls as [|url urls IH]; intros results σ Hdata.
  - exists σ, []. cbn. now rewrite !app_nil_r.
  - cbn [testMultipleUrls_loop probe_outcomes map length replicate].
    set (client := new_CuboClient (apiKey this) (Some url)).
    change (probe_request (apiKey this) (VObject (outgoing o)) url)
      with (pay_request client (VObject (outgoing o))).
    set (ev0 := ConsoleLog [VString (newline +:+ newline
                                       +:+ "Probando con URL base: " +:+ url)]).
    set (σ1 := {| heap := heap σ; trace := trace σ ++ [ev0] |}).
    assert (Hreq1 : requests (trace σ1) = requests (trace σ)).
    { unfold σ1. cbn [trace]. rewrite requests_app. cbn. apply app_nil_r. }
    destruct (pay_object_events client data o σ1 Hdata) as (evs1 & Hpay & Hreq' & Hp').
    rewrite Hreq1 in Hpay.
    set (r := pay_request client (VObject (outgoing o))) in *.
    set (response := pay_reply (network env (requests (trace σ)) r)) in *.
    set (h' := <[fresh (dom (heap σ1)) := outgoing o]> (heap σ1)) in *.
    assert (Hframe : forall l0 : loc, l0 ∈ dom (heap σ) -> h' !! l0 = heap σ !! l0).
    { intros l0 Hin. unfold h', σ1. cbn [heap]. apply lookup_insert_ne. intros Heq.
      apply (is_fresh (dom (heap σ))). now rewrite Heq. }
    assert (Hdata' : h' !! data = Some o).
    { rewrite Hframe; [exact Hdata|]. apply elem_of_dom. now exists o. }
    assert (Hnext : forall (out : TestResult.t) (ev2 : event),
               requests [ev2] = [] -> pauses [ev2] = [] ->
               exists (σ' : state) (evs : list event),
                 testMultipleUrls_loop env this data urls (results ++ [out])
                   {| heap := h';
                      trace := ((trace σ1 ++ evs1) ++ [ev2]) ++ [SetTimeout 1000] |}
                 = (Returned (results ++ out :: probe_outcomes env (apiKey this)
                                (VObject (outgoing o)) (requests (trace σ) ++ [r]) urls), σ') /\
                 trace σ' = trace σ ++ evs /\
                 requests evs
                 = r :: map (probe_request (apiKey this) (VObject (outgoing o))) urls /\
                 pauses evs = 1000 :: replicate (length urls) 1000 /\
                 (forall l0 : loc, l0 ∈ dom (heap σ) -> heap σ' !! l0 = heap σ !! l0)).
    { intros out ev2 Hr2 Hp2.
      destruct (IH (results ++ [out])
                  {| heap := h';
                     trace := ((trace σ1 ++ evs1) ++ [ev2]) ++ [SetTimeout 1000] |} Hdata')
        as (σ' & evs & Hrun & Htr & Hreq & Hpau & Hfr).
      cbn [heap trace] in Hrun, Htr, Hfr.
      assert (Hpast : requests (((trace σ1 ++ evs1) ++ [ev2]) ++ [SetTimeout 1000])
                      = requests (trace σ) ++ [r]).
      { rewrite !requests_app, Hreq1, Hreq', Hr2. cbn. now rewrite !app_nil_r. }
      rewrite Hpast in Hrun.
      exists σ', ([ev0] ++ evs1 ++ [ev2] ++ [SetTimeout 1000] ++ evs).
      split; [rewrite Hrun; now rewrite <- app_assoc|]. split.
      { rewrite Htr. unfold σ1. cbn [trace]. now rewrite <- !app_assoc. }
      split.
      { rewrite !requests_app, Hreq', Hr2, Hreq. reflexivity. }
      split.
      { rewrite !pauses_app, Hp', Hp2, Hpau. reflexivity. }
      intros l0 Hin. rewrite Hfr; [now apply Hframe|].
      apply elem_of_dom. rewrite Hframe by exact Hin. now apply elem_of_dom. }
    unfold console_log, emit, try_catch, lift_outcome.
    unfold mbind, M_bind, mret, M_ret. cbn [fst snd heap trace].
    fold ev0. fold σ1. rewrite Hpay. cbn [fst snd heap trace].
    unfold probe_outcome.
    destruct (handleResponse response) as [result|e]; cbv beta iota; cbn [heap trace];
      now apply Hnext.
Qed.

Lemma schedule_app (t1 t2 : list event) :
  schedule (t1 ++ t2) = schedule t1 ++ schedule t2.
Proof. apply omap_app. Qed.

(** Without pauses, the schedule is the list of requests. *)
Lemma schedule_requests (t : list event) :
  pauses t = [] -> schedule t = map inl (requests t).
Proof.
  induction t as [|[args|r|ms] t IH]; cbn; intros Hp.
  - reflexivity.
  - now apply IH.
  - f_equal. now apply IH.
  - discriminate Hp.
Qed.

(** The requests and the pauses of the loop alternate. *)
Lemma testMultipleUrls_loop_schedule (this : CuboClient) (data : loc)
    (o : gmap string value) (urls : list string) :
  forall (results : list TestResult.t) (σ : state),
    heap σ !! data = Some o ->
    exists evs : list event,
      trace (testMultipleUrls_loop env this data urls results σ).2 = trace σ ++ evs /\
      schedule evs = probe_schedule (apiKey this) (VObject (outgoing o)) urls.
Proof.
  induction urls as [|url urls IH]; intros results σ Hdata.
  - exists []. cbn. now rewrite app_nil_r.
  - cbn [testMultipleUrls_loop probe_schedule flat_map].
    set (client := new_CuboClient (apiKey this) (Some url)).
    change (probe_request (apiKey this) (VObject (outgoing o)) url)
      with (pay_request client (VObject (outgoing o))).
    set (ev0 := ConsoleLog [VString (newline +:+ newline
                                       +:+ "Probando con URL base: " +:+ url)]).
    set (σ1 := {| heap := heap σ; trace := trace σ ++ [ev0] |}).
    destruct (pay_object_events client data o σ1 Hdata) as (evs1 & Hpay & Hreq' & Hp').
    set (r := pay_request client (VObject (outgoing o))) in *.
    set (response := pay_reply (network env (requests (trace σ1)) r)) in *.
    set (h' := <[fresh (dom (heap σ1)) := outgoing o]> (heap σ1)) in *.
    assert (Hdata' : h' !! data = Some o).
    { unfold h', σ1. cbn [heap]. rewrite lookup_insert_ne; [exact Hdata|].
      intros Heq. apply (is_fresh (dom (heap σ))). rewrite Heq.
      apply elem_of_dom. now exists o. }
    assert (Hs1 : schedule evs1 = [inl r]).
    { rewrite (schedule_requests evs1 Hp'), Hreq'. reflexivity. }
    assert (Hnext : forall (out : TestResult.t) (args : list value),
               exists evs : list event,
                 trace (testMultipleUrls_loop env this data urls (results ++ [out])
                          {| heap := h';
                             trace := ((trace σ1 ++ evs1) ++ [ConsoleLog args])
                                      ++ [SetTimeout 1000] |}).2
                 = trace σ ++ evs /\
                 schedule evs
                 = [inl r; inr 1000]
                   ++ probe_schedule (apiKey this) (VObject (outgoing o)) urls).
    { intros out args.
      destruct (IH (results ++ [out])
                  {| heap := h';
                     trace := ((trace σ1 ++ evs1) ++ [ConsoleLog args])
                              ++ [SetTimeout 1000] |} Hdata')
        as (evs & Htr & Hsch).
      cbn [heap trace] in Htr.
      exists ([ev0] ++ evs1 ++ [ConsoleLog args] ++ [SetTimeout 1000] ++ evs). split.
      - rewrite Htr. unfold σ1. cbn [trace]. now rewrite <- !app_assoc.
      - rewrite !schedule_app, Hs1, Hsch. reflexivity. }
    unfold console_log, emit, try_catch, lift_outcome.
    unfold mbind, M_bind, mret, M_ret. cbn [fst snd heap trace].
    fold ev0. fold σ1. rewrite Hpay. cbn [fst snd heap trace].
    destruct (handleResponse response) as [result|e]; cbv beta iota; cbn [heap trace];
      apply Hnext.
Qed.

(** X18: [testMultipleUrls] always returns, and in the events it adds the
    requests and the pauses alternate: for each URL in turn the request to
    it, then a pause of 1000 ms, so there is a pause after the last request
    too and none before the first; in all, one pause of 1000 ms per URL. *)
Theorem testMultipleUrls_pauses (this : CuboClient) (data : loc)
    (o : gmap string value) (urls : list string) (σ : state) :
  heap σ !! data = Some o ->
  exists (results : list TestResult.t) (σ' : state) (evs : list event),
    testMultipleUrls env this data urls σ = (Returned results, σ') /\
    trace σ' = trace σ ++ evs /\
    schedule evs
    = flat_map (fun url =>
                  [inl (probe_request (apiKey this) (VObject (outgoing o)) url); inr 1000])
               urls /\
    pauses (trace σ') = pauses (trace σ) ++ replicate (length urls) 1000.
Proof.
  intros Hdata.
  destruct (testMultipleUrls_loop_events this data o urls [] σ Hdata)
    as (σ' & evs & Hrun & Htr & _ & Hp & _).
  destruct (testMultipleUrls_loop_schedule this data o urls [] σ Hdata)
    as (evs' & Htr' & Hsch).
  rewrite Hrun in Htr'. cbn [snd] in Htr'. rewrite Htr in Htr'.
  apply app_inv_head in Htr'. subst evs'.
  eexists. exists σ', evs. split; [exact Hrun|]. split; [exact Htr|].
  split; [exact Hsch|]. now rewrite Htr, pauses_app, Hp.
Qed.

(** X19: [testMultipleUrls] leaves the caller's payment object, and every
    object that existed, as it was: each probe works on a copy of its
    own. *)
Theorem testMultipleUrls_keeps_objects (this : CuboClient) (data : loc)
    (o : gmap string value) (urls : list string) (σ : state) :
  heap σ !! data = Some o ->
  exists (results : list TestResult.t) (σ' : state),
    testMultipleUrls env this data urls σ = (Returned results, σ') /\
    heap σ' !! data = Some o /\
    (forall l0 : loc, l0 ∈ dom (heap σ) -> heap σ' !! l0 = heap σ !! l0).
Proof.
  intros Hdata.
  destruct (testMultipleUrls_loop_events this data o urls [] σ Hdata)
    as (σ' & evs & Hrun & _ & _ & _ & Hfr).
  eexists. exists σ'. split; [exact Hrun|]. split; [|exact Hfr].
  rewrite Hfr; [exact Hdata|]. apply elem_of_dom. now exists o.
Qed.

(** X20: in every outcome of [testMultipleUrls] the result stored is
    [handleResponse] of the response stored next to it and there is no
    error, or there is an error and neither response nor result. *)
Theorem testMultipleUrls_outcomes (this : CuboClient) (data : loc)
    (o : gmap string value) (urls : list string) (σ : state) :
  heap σ !! data = Some o ->
  exists (results : list TestResult.t) (σ' : state),
    testMultipleUrls env this data urls σ = (Returned results, σ') /\
    Forall (fun out : TestResult.t =>
              (exists response result : value,
                 TestResult.response out = Some response /\
                 TestResult.result out = Some result /\
                 handleResponse response = Returned result /\
                 TestResult.error out = None) \/
              (exists message : string,
                 TestResult.error out = Some message /\
                 TestResult.response out = None /\
                 TestResult.result out = None))
           results.
Proof.
  intros Hdata.
  destruct (testMultipleUrls_loop_events this data o urls [] σ Hdata)
    as (σ' & evs & Hrun & _).
  eexists. exists σ'. split; [exact Hrun|]. cbn [app]. clear Hrun.
  generalize (requests (trace σ)). induction urls as [|url urls IH]; intros past.
  - constructor.
  - cbn [probe_outcomes]. constructor; [|apply IH].
    unfold probe_outcome.
    destruct (handleResponse _) as [result|e] eqn:Hh; cbn.
    + left. do 2 eexists. split; [reflexivity|]. split; [reflexivity|].
      split; [exact Hh | reflexivity].
    + right. eexists. split; [reflexivity|]. split; reflexivity.
Qed.

(** X21: [testMultipleUrls] uses of its own client the API key only: two
    clients with the same key, whatever their URLs and headers, probe in the
    same way. *)
Theorem testMultipleUrls_own_url_unused (this this' : CuboClient) (data : loc)
    (urls : list string) (σ : state) :
  apiKey this = apiKey this' ->
  testMultipleUrls env this data urls σ = testMultipleUrls env this' data urls σ.
Proof.
  intros Hkey. unfold testMultipleUrls. generalize (@nil TestResult.t).
  revert σ. induction urls as [|url urls IH]; intros σ results; [reflexivity|].
  cbn [testMultipleUrls_loop]. rewrite Hkey.
  unfold mbind, M_bind.
  destruct (console_log _ σ) as [[[]|e] σ1]; [|reflexivity].
  destruct (try_catch _ _ σ1) as [[results'|e] σ2]; [|reflexivity].
  destruct (emit _ σ2) as [[[]|e] σ3]; [|reflexivity].
  apply IH.
Qed.

End ProbeRuns.

(** ** The driver *)

Section DriverRuns.

Variable env : environment.

Lemma runTest_steps (σ : state) :
  exists (σ1 : state) (evs : list event),
    trace σ1 = trace σ ++ evs /\
    requests evs = [driver_request] /\ pauses evs = [] /\
    (forall l0 : loc, l0 ∈ dom (heap σ) -> heap σ1 !! l0 = heap σ !! l0) /\
    match handleResponse (pay_reply (network env (requests (trace σ)) driver_request)) with
    | Thrown e => runTest env σ = (Thrown e, σ1)
    | Returned _ =>
        exists (σ' : state) (evs' : list event),
          runTest env σ = (Returned (), σ') /\
          trace σ' = trace σ1 ++ evs' /\
          requests evs' = driver_probes /\
          pauses evs' = replicate 5 1000 /\
          (forall l0 : loc, l0 ∈ dom (heap σ) -> heap σ' !! l0 = heap σ !! l0)
    end.
Proof.
  set (o := runTest_paymentData).
  assert (Ho : outgoing o = o) by reflexivity.
  set (client := new_CuboClient "93aab3a749aa8da9" None).
  set (ev0 := ConsoleLog [VString "Probando API CuboPago"]).
  set (l := fresh (dom (heap σ))).
  set (σa := {| heap := <[l := o]> (heap σ); trace := trace σ ++ [ev0] |}).
  assert (Hl : heap σa !! l = Some o) by apply lookup_insert_eq.
  assert (Hreqa : requests (trace σa) = requests (trace σ)).
  { unfold σa. cbn [trace]. rewrite requests_app. cbn. apply app_nil_r. }
  destruct (pay_object_events env client l o σa Hl) as (evs1 & Hpay & Hreq1 & Hp1).
  rewrite Hreqa, Ho in Hpay. rewrite Ho in Hreq1.
  change (pay_request client (VObject o)) with driver_request in Hpay, Hreq1.
  set (response := pay_reply (network env (requests (trace σ)) driver_request)) in *.
  set (hb := <[fresh (dom (heap σa)) := o]> (heap σa)) in *.
  assert (Hframe_a : forall l0 : loc, l0 ∈ dom (heap σ) -> heap σa !! l0 = heap σ !! l0).
  { intros l0 Hin. unfold σa. cbn [heap]. apply lookup_insert_ne. intros Heq.
    apply (is_fresh (dom (heap σ))). fold l. now rewrite Heq. }
  assert (Hframe_b : forall l0 : loc, l0 ∈ dom (heap σa) -> hb !! l0 = heap σa !! l0).
  { intros l0 Hin. unfold hb. apply lookup_insert_ne. intros Heq.
    apply (is_fresh (dom (heap σa))). now rewrite Heq. }
  assert (Hframe : forall l0 : loc, l0 ∈ dom (heap σ) -> hb !! l0 = heap σ !! l0).
  { intros l0 Hin. rewrite Hframe_b; [now apply Hframe_a|].
    apply elem_of_dom. rewrite Hframe_a by exact Hin. now apply elem_of_dom. }
  assert (Hlb : hb !! l = Some o).
  { rewrite Hframe_b; [exact Hl|]. apply elem_of_dom. now exists o. }
  exists {| heap := hb; trace := trace σa ++ evs1 |}, ([ev0] ++ evs1).
  split; [unfold σa; cbn [trace]; now rewrite <- app_assoc|].
  split; [now rewrite requests_app, Hreq1|].
  split; [now rewrite pauses_app, Hp1|].
  split; [exact Hframe|].
  assert (Hstart : forall k : value -> M unit,
            runTest env σ
            = (response ← pay env client (inl l);
               result ← lift_outcome (handleResponse response); k result) σa ->
            runTest env σ
            = (result ← lift_outcome (handleResponse response); k result)
                {| heap := hb; trace := trace σa ++ evs1 |}).
  { intros k ->. unfold mbind at 1, M_bind. now rewrite Hpay. }
  specialize (Hstart _ eq_refl). unfold lift_outcome in Hstart.
  unfold mbind at 1, M_bind in Hstart. cbv beta iota in Hstart.
  destruct (handleResponse response) as [result|e]; [|exact Hstart].
  set (ev1 := ConsoleLog [VString "Resultado procesado:"; result]).
  set (ev2 := ConsoleLog [VString (newline +:+ newline +:+ "Probando múltiples URLs...")]).
  set (σc := {| heap := hb; trace := ((trace σa ++ evs1) ++ [ev1]) ++ [ev2] |}).
  destruct (testMultipleUrls_loop_events env client l o
              [ "https://api.cubo.com"; "https://api.cubopago.com"; "https://cubopago.com";
                "https://api-sandbox.cubopago.com"; "https://sandbox.cubopago.com" ]%string
              [] σc Hlb)
    as (σ' & evs' & Hrun & Htr & Hreq & Hp & Hfr).
  rewrite Ho in Hreq.
  exists σ', ([ev1; ev2] ++ evs').
  split.
  { rewrite Hstart. unfold console_log, emit.
    unfold mbind, M_bind, mret, M_ret. cbn [fst snd heap trace].
    fold ev1. fold ev2. fold σc. unfold testMultipleUrls. fold client. fold l.
    now rewrite Hrun. }
  split; [rewrite Htr; unfold σc; cbn [trace]; now rewrite <- !app_assoc|].
  split; [rewrite requests_app; exact Hreq|].
  split; [rewrite pauses_app; exact Hp|].
  intros l0 Hin. rewrite Hfr; [now apply Hframe|].
  apply elem_of_dom. unfold σc. cbn [heap]. rewrite Hframe by exact Hin.
  now apply elem_of_dom.
Qed.


(** X23: when the answer to the driver's first payment is one on which
    [handleResponse] throws (a 2xx answer with the body [null]), [runTest]
    throws that error after this single request: the five hosts are not
    probed and there is no pause. *)
Theorem runTest_stops_at_first_error (σ : state) (e : exn) :
  handleResponse (pay_reply (network env (requests (trace σ)) driver_request))
  = Thrown e ->
  exists σ' : state,
    runTest env σ = (Thrown e, σ') /\
    requests (trace σ') = requests (trace σ) ++ [driver_request] /\
    pauses (trace σ') = pauses (trace σ).
Proof.
  intros Hh. destruct (runTest_steps σ) as (σ1 & evs & Htr & Hreq & Hp & _ & Hrun).
  rewrite Hh in Hrun. exists σ1. split; [exact Hrun|]. rewrite Htr. split.
  - now rewrite requests_app, Hreq.
  - now rewrite pauses_app, Hp, app_nil_r.
Qed.

End DriverRuns.

(** ** Amounts with two decimals *)

Module NumberRounding.
Import Number NumberFacts.

Lemma shr_1_div (mrs : shr_record) :
  0 <= shr_m mrs -> shr_m (shr_1 mrs) = shr_m mrs / 2.
Proof.
  destruct mrs as [m r s]. cbn [shr_m]. intros Hm.
  rewrite <- Z.div2_div.
  destruct m as [|[p|p|]|p]; cbn [shr_1 shr_m]; try reflexivity; lia.
Qed.

Lemma iter_shr_1_div (n : positive) :
  forall mrs : shr_record,
    0 <= shr_m mrs ->
    shr_m (SpecFloat.iter_pos shr_1 n mrs) = shr_m mrs / 2 ^ Zpos n.
Proof.
  assert (Hpow : forall p : positive, 0 < 2 ^ Zpos p) by (intros; now apply Z.pow_pos_nonneg).
  assert (HxO : forall p : positive, 2 ^ Zpos p~0 = 2 ^ Zpos p * 2 ^ Zpos p).
  { intros p. replace (Zpos p~0) with (Zpos p + Zpos p) by lia.
    apply Z.pow_add_r; lia. }
  assert (HxI : forall p : positive, 2 ^ Zpos p~1 = 2 * (2 ^ Zpos p * 2 ^ Zpos p)).
  { intros p. replace (Zpos p~1) with (1 + (Zpos p + Zpos p)) by lia.
    rewrite !Z.pow_add_r by lia. reflexivity. }
  induction n as [n IH|n IH|]; intros mrs Hm; cbn [SpecFloat.iter_pos].
  - pose proof (shr_1_bounds mrs Hm) as H1.
    pose proof (iter_shr_1_bounds n (shr_1 mrs) (proj1 H1)) as H2.
    rewrite IH by apply H2. rewrite IH by apply H1. rewrite shr_1_div by exact Hm.
    pose proof (Hpow n). rewrite !Z.div_div by lia. now rewrite HxI, Z.mul_assoc.
  - pose proof (iter_shr_1_bounds n mrs Hm) as H2.
    rewrite IH by apply H2. rewrite IH by exact Hm.
    pose proof (Hpow n). rewrite Z.div_div by lia. now rewrite HxO.
  - rewrite shr_1_div by exact Hm. reflexivity.
Qed.

(** The first component of [shr_fexp] is the quotient by the power of two
    that the exponent grew by. *)
Lemma shr_fexp_div (m e : Z) (l : location) :
  0 <= m ->
  shr_m (fst (shr_fexp prec emax m e l))
  = m / 2 ^ (snd (shr_fexp prec emax m e l) - e) /\
  e <= snd (shr_fexp prec emax m e l).
Proof.
  intros Hm. unfold shr_fexp, shr.
  assert (Hrec : shr_m (shr_record_of_loc m l) = m) by (now destruct l as [|[]]).
  destruct (fexp prec emax (Zdigits2 m + e) - e) as [|n|n] eqn:Hn; cbn [fst snd].
  - rewrite Hrec, Z.sub_diag. cbn. rewrite Z.div_1_r. lia.
  - rewrite iter_shr_1_div by (rewrite Hrec; exact Hm). rewrite Hrec.
    replace (e + Zpos n - e) with (Zpos n) by lia. lia.
  - rewrite Hrec, Z.sub_diag. cbn. rewrite Z.div_1_r. lia.
Qed.

Lemma digits2_upper (m : Z) : 0 <= m -> m < 2 ^ Zdigits2 m.
Proof.
  intros Hm. destruct m as [|p|p]; [reflexivity| |lia].
  cbn [Zdigits2]. rewrite digits2_size, <- Pos2Z.inj_pow. apply Pos.size_gt.
Qed.

(** Rounding a positive mantissa below [2^106]: the result is zero or
    finite, its exponent is at most 54 above the one given, and it differs
    from the exact value by at most two units of its last place. *)
Lemma binary_round_aux_close (s : bool) (mx ex : Z) :
  0 < mx < 2 ^ 106 -> emin prec emax - 53 <= ex <= 800 ->
  exists m2 e2 : Z,
    binary_round_aux prec emax s mx ex loc_Exact
    = match m2 with
      | Zpos p => S754_finite s p e2
      | _ => S754_zero s
      end /\
    0 <= m2 /\ ex <= e2 <= ex + 54 /\
    Z.abs (m2 * 2 ^ (e2 - ex) - mx) <= 2 ^ (e2 - ex + 1).
Proof.
  intros Hmx Hex. unfold binary_round_aux.
  destruct (shr_fexp_bounds mx ex loc_Exact ltac:(lia)) as [Hb1 He1].
  destruct (shr_fexp_div mx ex loc_Exact ltac:(lia)) as [Hq1 Hle1].
  destruct (shr_fexp prec emax mx ex loc_Exact) as [mrs1 e1].
  cbn [fst snd] in Hb1, He1, Hq1, Hle1.
  set (q1 := shr_m mrs1) in *.
  set (m1 := round_nearest_even q1 (loc_of_shr_record mrs1)).
  pose proof (round_nearest_even_bounds q1 (loc_of_shr_record mrs1)) as Hr. fold m1 in Hr.
  destruct (shr_fexp_bounds m1 e1 loc_Exact ltac:(lia)) as [Hb2 He2].
  destruct (shr_fexp_div m1 e1 loc_Exact ltac:(lia)) as [Hq2 Hle2].
  destruct (shr_fexp prec emax m1 e1 loc_Exact) as [mrs2 e2].
  cbn [fst snd] in Hb2, He2, Hq2, Hle2.
  set (m2 := shr_m mrs2) in *.
  set (D := Zdigits2 mx) in *.
  assert (HD : 0 <= D <= 106).
  { split; [unfold D; destruct mx; cbn; lia|]. apply Zdigits2_le; lia. }
  pose proof (digits2_upper mx ltac:(lia)) as HmxD. fold D in HmxD.
  set (n1 := e1 - ex) in *.
  assert (Hn1 : 0 <= n1 /\ D - 53 <= n1 /\ n1 <= 53).
  { unfold n1, fexp, emin, prec, emax in *. lia. }
  assert (HA : 0 < 2 ^ n1) by (apply Z.pow_pos_nonneg; lia).
  assert (Hq1lo : 2 ^ n1 * q1 <= mx) by (rewrite Hq1; apply Z.mul_div_le; exact HA).
  assert (Hq1hi : mx < 2 ^ n1 * (q1 + 1)).
  { rewrite Hq1. apply (Z.mul_succ_div_gt mx (2 ^ n1) HA). }
  assert (Hq53 : q1 < 2 ^ 53).
  { destruct (Z.le_gt_cases D 53) as [Hs|Hs].
    - assert (2 ^ D <= 2 ^ 53) by (apply Z.pow_le_mono_r; lia). nia.
    - rewrite Hq1. apply Z.div_lt_upper_bound; [exact HA|].
      rewrite <- Z.pow_add_r by lia.
      assert (2 ^ D <= 2 ^ (n1 + 53)) by (apply Z.pow_le_mono_r; lia). lia. }
  assert (Hd1 : Zdigits2 m1 <= 54).
  { apply Zdigits2_le; [|lia]. change (2 ^ 54) with (2 * 2 ^ 53). lia. }
  set (n2 := e2 - e1) in *.
  assert (Hn2 : 0 <= n2 <= 1).
  { unfold n2, fexp, emin, prec, emax in *. lia. }
  assert (HB : 0 < 2 ^ n2) by (apply Z.pow_pos_nonneg; lia).
  assert (Hq2lo : 2 ^ n2 * m2 <= m1) by (rewrite Hq2; apply Z.mul_div_le; exact HB).
  assert (Hq2hi : m1 < 2 ^ n2 * (m2 + 1)).
  { rewrite Hq2. apply (Z.mul_succ_div_gt m1 (2 ^ n2) HB). }
  exists m2, e2. split; [|split; [lia|split; [unfold n1, n2 in *; lia|]]].
  - destruct m2 as [|p|p] eqn:Hm2; [reflexivity| |lia].
    replace (e2 <=? emax - prec) with true; [reflexivity|].
    symmetry. apply Z.leb_le. unfold n1, n2, emax, prec in *. lia.
  - replace (e2 - ex) with (n1 + n2) by (unfold n1, n2; lia).
    rewrite !Z.pow_add_r by lia. change (2 ^ 1) with 2.
    set (A := 2 ^ n1) in *. set (B := 2 ^ n2) in *.
    assert (HB2 : B <= 2).
    { unfold B. change 2 with (2 ^ 1) at 2. apply Z.pow_le_mono_r; lia. }
    apply Z.abs_le. nia.
Qed.

(** A bound on the distance to [k / 100] in integers, at the scale [2^j]. *)
Lemma literal_bound (m k e j : Z) :
  0 <= j -> 0 <= e + j ->
  (Qabs (dyadic m e - (k # 100)) <= 2 ^ (e - 1))%Q ->
  2 * Z.abs (100 * m * 2 ^ (e + j) - k * 2 ^ j) <= 100 * 2 ^ (e + j).
Proof.
  intros Hj Hej Hq. apply Qabs_Qle_condition in Hq. destruct Hq as [Hlo Hhi].
  assert (HJ : (0 <= inject_Z (2 ^ j))%Q).
  { rewrite <- pow2_Q by exact Hj. apply Qlt_le_weak, pow2_Q_pos. }
  assert (HPJ : (2 ^ e * inject_Z (2 ^ j) == inject_Z (2 ^ (e + j)))%Q).
  { rewrite <- !pow2_Q by lia. symmetry. apply Qpower_plus. discriminate. }
  assert (Hhalf : (2 ^ (e - 1) == 2 ^ e * (1 # 2))%Q).
  { unfold Z.sub. rewrite Qpower_plus by discriminate. reflexivity. }
  rewrite Hhalf in Hlo, Hhi. unfold dyadic in Hlo, Hhi.
  set (P := (2 ^ e)%Q) in *. set (J := inject_Z (2 ^ j)) in *.
  set (EJ := 2 ^ (e + j)) in *.
  assert (Hm : (inject_Z (100 * m * EJ - k * 2 ^ j)
                == (inject_Z m * P - (k # 100)) * (100 * J))%Q).
  { unfold Z.sub. rewrite inject_Z_plus, inject_Z_opp, !inject_Z_mult. fold J.
    rewrite <- HPJ.
    assert (Hk : (k # 100 == inject_Z k * (1 # 100))%Q) by (unfold Qeq; cbn; lia).
    rewrite Hk. change (inject_Z 100) with 100%Q. ring. }
  apply (Qmult_le_compat_r _ _ (100 * J)) in Hlo;
    [|apply Qmult_le_0_compat; [discriminate | exact HJ]].
  apply (Qmult_le_compat_r _ _ (100 * J)) in Hhi;
    [|apply Qmult_le_0_compat; [discriminate | exact HJ]].
  rewrite <- Hm in Hlo, Hhi.
  assert (Hr : (P * (1 # 2) * (100 * J) == inject_Z (50 * EJ))%Q).
  { rewrite inject_Z_mult, <- HPJ. change (inject_Z 50) with 50%Q. ring. }
  assert (Hl : (- (P * (1 # 2)) * (100 * J) == inject_Z (- (50 * EJ)))%Q).
  { rewrite inject_Z_opp, inject_Z_mult, <- HPJ. change (inject_Z 50) with 50%Q. ring. }
  rewrite Hr in Hhi. rewrite Hl in Hlo.
  rewrite <- Zle_Qle in Hlo, Hhi. lia.
Qed.

End NumberRounding.

(** An amount within half a unit in the last place of [k / 100], with
    [k < 2^40], has a small exponent. *)
Lemma two_decimals_exponent (k : Z) (m : positive) (e : Z) :
  1 <= k < 2 ^ 40 ->
  valid_binary Number.prec Number.emax (S754_finite false m e) = true ->
  (Qabs (Number.dyadic (Zpos m) e - (k # 100)) <= 2 ^ (e - 1))%Q ->
  - 1074 <= e <= - 12.
Proof.
  intros Hk Hv Hq.
  pose proof (NumberFacts.valid_mantissa false m e Hv) as Hm.
  change (2 ^ 40) with 1099511627776 in Hk.
  change (2 ^ 53) with 9007199254740992 in Hm.
  cbn [valid_binary] in Hv. unfold bounded, canonical_mantissa in Hv.
  apply andb_true_iff in Hv. destruct Hv as [Hc _]. apply Z.eqb_eq in Hc.
  rewrite NumberFacts.digits2_size in Hc.
  unfold fexp, emin, Number.prec, Number.emax in Hc.
  destruct (Z.le_gt_cases e (- 12)) as [|Hbig]; [lia|]. exfalso.
  assert (Hs : Zpos (Pos.size m) = 53) by lia.
  pose proof (Pos.size_le m) as Hle.
  assert (H52 : 2 ^ 53 <= 2 * Zpos m).
  { change (2 * Zpos m) with (Zpos m~0). rewrite <- Hs, <- Pos2Z.inj_pow. exact Hle. }
  change (2 ^ 53) with 9007199254740992 in H52.
  pose proof (NumberRounding.literal_bound (Zpos m) k e 12 ltac:(lia) ltac:(lia) Hq) as Hb.
  assert (HE : 2 <= 2 ^ (e + 12)).
  { change 2 with (2 ^ 1) at 1. apply Z.pow_le_mono_r; lia. }
  set (E := 2 ^ (e + 12)) in *.
  change (2 ^ 12) with 4096 in Hb.
  assert (2 * (200 * Zpos m - 100) <= E * (200 * Zpos m - 100)) by nia.
  lia.
Qed.

(** Such an amount is not a whole number unless [k] is a multiple of 100. *)
Lemma two_decimals_fractional (k : Z) (m : positive) (e : Z) :
  1 <= k < 2 ^ 40 -> ~ (100 | k) ->
  valid_binary Number.prec Number.emax (S754_finite false m e) = true ->
  (Qabs (Number.toQ (S754_finite false m e) - (k # 100)) <= 2 ^ (e - 1))%Q ->
  ~ Number.integral (S754_finite false m e).
Proof.
  intros Hk Hdiv Hv Hq [_ [n Hn]].
  cbn [Number.toQ cond_Zopp] in Hq, Hn. fold (Number.dyadic (Zpos m) e) in Hq, Hn.
  pose proof (two_decimals_exponent k m e Hk Hv Hq) as He.
  pose proof (NumberRounding.literal_bound (Zpos m) k e (- e) ltac:(lia) ltac:(lia) Hq) as Hb.
  rewrite Z.add_opp_diag_r in Hb. change (2 ^ 0) with 1 in Hb.
  replace e with (- - e) in Hn by lia.
  apply NumberFacts.dyadic_integer in Hn; [|lia].
  assert (HW : 2 ^ 12 <= 2 ^ (- e)) by (apply Z.pow_le_mono_r; lia).
  change (2 ^ 12) with 4096 in HW. set (W := 2 ^ (- e)) in *.
  apply Hdiv. exists n. rewrite Hn in Hb.
  assert (Hb' : 2 * (Z.abs (100 * n - k) * W) <= 100).
  { rewrite <- (Z.abs_eq W) at 1 by lia. rewrite <- Z.abs_mul.
    replace ((100 * n - k) * W) with (100 * (n * W) * 1 - k * W) by ring. exact Hb. }
  destruct (Z.eq_dec (100 * n - k) 0) as [|Hne]; [lia|].
  assert (1 <= Z.abs (100 * n - k)) by lia. nia.
Qed.

(** The number of cents of such an amount. *)
Lemma two_decimals_cents (k : Z) (m : positive) (e : Z) :
  1 <= k < 2 ^ 40 ->
  valid_binary Number.prec Number.emax (S754_finite false m e) = true ->
  (Qabs (Number.toQ (S754_finite false m e) - (k # 100)) <= 2 ^ (e - 1))%Q ->
  convertCentv (S754_finite false m e) = Number.exact false k 0.
Proof.
  intros Hk Hv Hq. cbn [Number.toQ cond_Zopp] in Hq.
  fold (Number.dyadic (Zpos m) e) in Hq.
  pose proof (NumberFacts.valid_mantissa false m e Hv) as Hm.
  pose proof (two_decimals_exponent k m e Hk Hv Hq) as He.
  change (2 ^ 40) with 1099511627776 in Hk.
  change (2 ^ 53) with 9007199254740992 in Hm.
  pose proof (NumberRounding.literal_bound (Zpos m) k e (- e) ltac:(lia) ltac:(lia) Hq) as Hc.
  rewrite Z.add_opp_diag_r in Hc. change (2 ^ 0) with 1 in Hc.
  (* the product, rounded *)
  unfold convertCentv, Number.mul.
  change Number.hundred with (S754_finite false 7036874417766400 (- 46)).
  cbn [SFmul xorb].
  destruct (NumberRounding.binary_round_aux_close false
              (Zpos (m * 7036874417766400)) (e + - 46))
    as (m2 & e2 & Hround & Hm2 & He2 & Herr).
  { rewrite Pos2Z.inj_mul. split; [lia|].
    change (2 ^ 106) with (9007199254740992 * 9007199254740992).
    apply Z.mul_lt_mono_nonneg; [lia | exact Hm | lia | reflexivity]. }
  { unfold emin, Number.prec, Number.emax. lia. }
  rewrite Hround. clear Hround.
  set (N := e2 - (e + - 46)) in *.
  assert (HN : 0 <= N <= 54) by (unfold N; lia).
  assert (HK2 : 4 <= - e2 /\ - e2 - 1 + N = - e + 45) by (unfold N; lia).
  assert (HT : 0 < 2 ^ N <= 2 ^ 54).
  { split; [apply Z.pow_pos_nonneg; lia | apply Z.pow_le_mono_r; lia]. }
  assert (HU : 0 < 2 ^ (- e2 - 1)) by (apply Z.pow_pos_nonneg; lia).
  assert (HUT : 2 ^ (- e2 - 1) * 2 ^ N = 2 ^ (- e) * 2 ^ 45).
  { rewrite <- !Z.pow_add_r by lia. f_equal. lia. }
  assert (HW : 2 ^ 12 <= 2 ^ (- e)) by (apply Z.pow_le_mono_r; lia).
  assert (H2U : 2 ^ (- e2) = 2 * 2 ^ (- e2 - 1)).
  { replace (- e2) with (1 + (- e2 - 1)) at 1 by lia. apply Z.pow_add_r; lia. }
  assert (Hmx : Zpos (m * 7036874417766400) = 100 * Zpos m * 2 ^ 46).
  { rewrite Pos2Z.inj_mul. change (Zpos 7036874417766400) with (100 * 2 ^ 46). ring. }
  rewrite Hmx in Herr.
  replace (2 ^ (N + 1)) with (2 * 2 ^ N) in Herr
    by (rewrite Z.pow_add_r by lia; change (2 ^ 1) with 2; ring).
  set (T := 2 ^ N) in *. set (U := 2 ^ (- e2 - 1)) in *. set (W := 2 ^ (- e)) in *.
  change (2 ^ 46) with 70368744177664 in Herr.
  change (2 ^ 45) with 35184372088832 in HUT.
  change (2 ^ 54) with 18014398509481984 in HT.
  change (2 ^ 12) with 4096 in HW.
  assert (HZT : (m2 - k * (2 * U)) * T = m2 * T - k * W * 70368744177664).
  { replace ((m2 - k * (2 * U)) * T) with (m2 * T - 2 * k * (U * T)) by ring.
    rewrite HUT. ring. }
  apply Z.abs_le in Herr.
  assert (Hc' : - 50 <= 100 * Zpos m - k * W <= 50).
  { rewrite Z.mul_1_r in Hc. lia. }
  assert (Hnear : - U < m2 - k * (2 * U) < U).
  { split.
    - apply (Z.mul_lt_mono_pos_r T); [lia|]. rewrite HZT.
      replace (- U * T) with (- (U * T)) by ring. rewrite HUT. lia.
    - apply (Z.mul_lt_mono_pos_r T); [lia|]. rewrite HZT, HUT. lia. }
  (* [Math.round] of it *)
  destruct m2 as [|p|p]; [lia| |lia].
  cbn [Number.round cond_Zopp].
  replace (0 <=? e2) with false by (symmetry; apply Z.leb_gt; lia).
  fold U. rewrite H2U.
  assert (Hn : (Zpos p + U) / (2 * U) = k).
  { symmetry. apply (Z.div_unique _ _ _ (Zpos p + U - k * (2 * U))); lia. }
  rewrite Hn.
  replace (k =? 0) with false by (symmetry; apply Z.eqb_neq; lia).
  replace (k <? 0) with false by (symmetry; apply Z.ltb_ge; lia).
  now rewrite Z.abs_eq by lia.
Qed.

(** X24: an amount of [k] cents written with two decimals, [k] from 1 up to
    [2^40], anywhere within half a unit in the last place of [k / 100] (as
    the number literal is), is converted to exactly [k]: neither the
    representation error of the literal nor the rounding of the product
    changes the number of cents. *)
Theorem convertCentv_two_decimals (k : Z) (m : positive) (e : Z) :
  1 <= k < 2 ^ 40 ->
  valid_binary Number.prec Number.emax (S754_finite false m e) = true ->
  (Qabs (Number.toQ (S754_finite false m e) - (k # 100)) <= 2 ^ (e - 1))%Q ->
  convertCentv (S754_finite false m e) = Number.exact false k 0.
Proof. exact (two_decimals_cents k m e). Qed.

(** X25: [convertCentv] checks nothing: [NaN], the infinities and the
    zeros are returned as they are. *)
Theorem convertCentv_not_an_amount (a : number) :
  Number.isFinite a = false \/ (exists s : bool, a = S754_zero s) ->
  convertCentv a = a.
Proof.
  intros [Hf|[s ->]].
  - destruct a as [s|[]| |s m e]; try discriminate Hf; reflexivity.
  - now destruct s.
Qed.

(** ** Cents on the wire *)

Section PayCents.

Variable env : environment.

(** X26: a payment whose amount is [k] cents written with two decimals
    ([k] below [2^40] and not a whole number of units) is posted with the
    amount [k], exactly, and with every other field as given. *)
Theorem pay_sends_cents (this : CuboClient) (data : loc + string)
    (o : gmap string value) (σ : state) (k : Z) (m : positive) (e : Z) :
  payload env σ data o ->
  o !! "amount" = Some (VNumber (S754_finite false m e)) ->
  1 <= k < 2 ^ 40 -> ~ (100 | k) ->
  valid_binary Number.prec Number.emax (S754_finite false m e) = true ->
  (Qabs (Number.toQ (S754_finite false m e) - (k # 100)) <= 2 ^ (e - 1))%Q ->
  exists (v : outcome value) (σ' : state),
    pay env this data σ = (v, σ') /\
    requests (trace σ') = requests (trace σ)
      ++ [pay_request this (VObject (<["amount" := VNumber (Number.exact false k 0)]> o))].
Proof.
  intros Hp Ha Hk Hdiv Hv Hq.
  destruct (pay_payload env this data o σ Hp) as (t' & Hrun & Hreq).
  do 2 eexists. split; [exact Hrun|]. cbn [trace]. rewrite Hreq. do 3 f_equal.
  unfold outgoing, get_own. rewrite Ha. cbn [default from_option id].
  rewrite converted_amount_fractional;
    [|reflexivity|now apply (two_decimals_fractional k)].
  now rewrite (two_decimals_cents k m e Hk Hv Hq).
Qed.

End PayCents.

(** ** The further properties on examples *)

Lemma pay_success_verbatim_witness :
  (pay Example.env Hosts.accepting (inl 1%positive) Example.initial).1
  = Returned Example.succeeded.
Proof.
  apply (pay_success_verbatim Example.env Hosts.accepting (inl 1%positive) Example.initial
           (pay Example.env Hosts.accepting (inl 1%positive) Example.initial).2
           (pay Example.env Hosts.accepting (inl 1%positive) Example.initial).1
           (pay_request Hosts.accepting
              (VObject (Example.paymentData (Number.exact false 1050 0))))
           200 Example.succeeded).
  - now destruct (pay _ _ _ _).
  - vm_compute. reflexivity.
  - reflexivity.
  - lia.
Defined.

Lemma pay_no_response_witness :
  (pay Example.env Hosts.silent (inl 1%positive) Example.initial).1
  = Returned (VObject {[ "error" := VString "No se recibió respuesta del servidor" ]}).
Proof.
  apply (pay_no_response Example.env Hosts.silent (inl 1%positive) Example.initial
           (pay Example.env Hosts.silent (inl 1%positive) Example.initial).2
           (pay Example.env Hosts.silent (inl 1%positive) Example.initial).1
           (pay_request Hosts.silent
              (VObject (Example.paymentData (Number.exact false 1050 0))))
           "Network Error").
  - now destruct (pay _ _ _ _).
  - vm_compute. reflexivity.
  - reflexivity.
Defined.

Lemma pay_not_sent_witness :
  (pay Offline.env Example.client (inl 1%positive) Offline.initial).1
  = Returned (VObject {[ "error" := VString "Error de conexión: getaddrinfo ENOTFOUND api.cubo.com" ]}).
Proof.
  apply (pay_not_sent Offline.env Example.client (inl 1%positive) Offline.initial
           (pay Offline.env Example.client (inl 1%positive) Offline.initial).2
           (pay Offline.env Example.client (inl 1%positive) Offline.initial).1
           (pay_request Example.client
              (VObject {[ "amount" := VString "10.5"; "cvv" := VString "123" ]}))
           "getaddrinfo ENOTFOUND api.cubo.com").
  - now destruct (pay _ _ _ _).
  - vm_compute. reflexivity.
  - reflexivity.
Defined.

Lemma pay_throws_iff_witness :
  exists (e : exn) (σ' : state),
    pay Example.env Example.client (inr "null"%string) Example.initial = (Thrown e, σ').
Proof.
  apply (proj2 (pay_throws_iff Example.env Example.client (inr "null"%string) Example.initial)).
  exists "null"%string. split; [reflexivity|]. left. reflexivity.
Defined.

Lemma pay_null_text_witness :
  pay Example.env Example.client (inr "null"%string) Example.initial
  = (Thrown (TypeError "Cannot read properties of null (reading 'amount')"), Example.initial).
Proof.
  exact (pay_null_text Example.env Example.client "null" Example.initial eq_refl).
Defined.

Lemma pay_parsed_primitive_witness :
  exists (v : value) (σ' : state),
    pay Offline.env Example.client (inr "42"%string) Offline.initial = (Returned v, σ') /\
    requests (trace σ')
    = requests (trace Offline.initial)
      ++ [pay_request Example.client (VNumber (Number.exact false 42 0))] /\
    heap σ' = heap Offline.initial.
Proof.
  apply (pay_parsed_primitive Offline.env Example.client "42"
           (VNumber (Number.exact false 42 0)) Offline.initial eq_refl);
    discriminate.
Defined.

Lemma pay_amount_left_alone_witness :
  exists (v : outcome value) (σ' : state),
    pay Offline.env Example.client (inl 1%positive) Offline.initial = (v, σ') /\
    requests (trace σ')
    = requests (trace Offline.initial)
      ++ [pay_request Example.client
            (VObject {[ "amount" := VString "10.5"; "cvv" := VString "123" ]})].
Proof.
  apply (pay_amount_left_alone Offline.env Example.client (inl 1%positive)
           {[ "amount" := VString "10.5"; "cvv" := VString "123" ]} Offline.initial eq_refl).
  intros a Ha. vm_compute in Ha. discriminate Ha.
Defined.

Lemma pay_request_shape_witness :
  exists rs : list request,
    requests (trace (pay Example.env Example.client (inl 1%positive) Example.initial).2)
    = requests (trace Example.initial) ++ rs /\
    (length rs <= 1)%nat /\
    forall r : request, r ∈ rs ->
      endpoint r = "https://api.cubo.com/api/v1/transactions"%string /\
      request_headers r = {[ "X-API-KEY" := "93aab3a749aa8da9"%string;
                             "Content-Type" := "application/json"%string ]}.
Proof.
  apply (pay_request_shape Example.env "93aab3a749aa8da9" None (inl 1%positive)
           Example.initial
           (pay Example.env Example.client (inl 1%positive) Example.initial).2
           (pay Example.env Example.client (inl 1%positive) Example.initial).1).
  now destruct (pay _ _ _ _).
Defined.

Lemma pay_frame_witness :
  pauses (trace (pay Example.env Example.client (inl 1%positive) Example.initial).2)
  = pauses (trace Example.initial) /\
  (exists evs : list event,
     trace (pay Example.env Example.client (inl 1%positive) Example.initial).2
     = trace Example.initial ++ evs) /\
  (forall l0 : loc, l0 ∈ dom (heap Example.initial) ->
     heap (pay Example.env Example.client (inl 1%positive) Example.initial).2 !! l0
     = heap Example.initial !! l0).
Proof.
  apply (pay_frame Example.env Example.client (inl 1%positive) Example.initial
           (pay Example.env Example.client (inl 1%positive) Example.initial).2
           (pay Example.env Example.client (inl 1%positive) Example.initial).1).
  now destruct (pay _ _ _ _).
Defined.

Lemma handleResponse_throws_iff_witness :
  exists e : exn, handleResponse VNull = Thrown e.
Proof.
  apply (proj2 (handleResponse_throws_iff VNull)). left. reflexivity.
Defined.

(** A 2xx answer with an HTML page as body. *)
Lemma handleResponse_not_an_object_witness :
  handleResponse (VString "<html></html>")
  = Returned (VObject {[ "success" := VBool false;
                         "message" := VString "Error desconocido" ]}).
Proof.
  apply (handleResponse_not_an_object (VString "<html></html>")); discriminate.
Defined.

Lemma handleResponse_shape_witness :
  exists fields : gmap string value,
    VObject {[ "success" := VBool false; "message" := VString "declined" ]} = VObject fields /\
    ((fields !! "success" = Some (VBool true) /\
      dom fields = {[ "success"; "reference_id"; "authorization_code"; "processed_at" ]})
     \/
     (fields !! "success" = Some (VBool false) /\
      dom fields = {[ "success"; "message" ]} /\
      exists message : value,
        fields !! "message" = Some message /\ truthy message = true)).
Proof.
  exact (handleResponse_shape Example.declined _ eq_refl).
Defined.

Lemma pay_failure_normalised_witness :
  exists (response : value) (σ' : state),
    pay Offline.env Example.client (inl 2%positive) Offline.initial = (Returned response, σ') /\
    get_prop response "error"
    = Returned (VString "Error de conexión: getaddrinfo ENOTFOUND api.cubo.com") /\
    handleResponse response
    = Returned (VObject {[ "success" := VBool false;
                           "message" := VString "Error de conexión: getaddrinfo ENOTFOUND api.cubo.com" ]}).
Proof.
  apply (pay_failure_normalised Offline.env Example.client (inl 2%positive)
           (Example.paymentData amount_19_99) Offline.initial
           (NotSent "getaddrinfo ENOTFOUND api.cubo.com") eq_refl eq_refl).
  intros status body H. discriminate H.
Defined.

Lemma pay_invalid_json_normalised_witness :
  exists response : value,
    pay Example.env Example.client (inr "not json"%string) Example.initial
    = (Returned response, Example.initial) /\
    handleResponse response
    = Returned (VObject {[ "success" := VBool false;
                           "message" := VString "Los datos proporcionados no son un JSON válido" ]}).
Proof.
  exact (pay_invalid_json_normalised Example.env Example.client "not json" Example.initial
           eq_refl).
Defined.

Lemma pay_success_normalised_witness :
  exists (response : value) (σ' : state),
    pay Example.env Hosts.accepting (inl 1%positive) Example.initial = (Returned response, σ') /\
    handleResponse response
    = Returned (VObject {[ "success" := VBool true;
                           "reference_id" := VString "r1";
                           "authorization_code" := VString "a1";
                           "processed_at" := VString "t1" ]}).
Proof.
  exact (pay_success_normalised Example.env Hosts.accepting (inl 1%positive)
           (Example.paymentData amount_10_5) Example.initial 200
           {[ "status" := VString "SUCCEEDED";
              "referenceId" := VString "r1";
              "authorizationCode" := VString "a1";
              "processedAt" := VString "t1" ]}
           eq_refl eq_refl (conj (N.le_refl 200) eq_refl) eq_refl eq_refl).
Defined.

Lemma pay_twice_same_request_witness :
  let σ1 := (pay Example.env Example.client (inl 1%positive) Example.initial).2 in
  let σ2 := (pay Example.env Example.client (inl 1%positive) σ1).2 in
  exists r : request,
    requests (trace σ2) = requests (trace Example.initial) ++ [r; r] /\
    heap σ2 !! 1%positive = Some (Example.paymentData amount_10_5).
Proof.
  intros σ1 σ2.
  apply (pay_twice_same_request Example.env Example.client 1%positive
           (Example.paymentData amount_10_5) Example.initial σ1 σ2
           (pay Example.env Example.client (inl 1%positive) Example.initial).1
           (pay Example.env Example.client (inl 1%positive) σ1).1).
  - reflexivity.
  - apply surjective_pairing.
  - apply surjective_pairing.
Defined.

Lemma testMultipleUrls_pauses_witness :
  exists (results : list TestResult.t) (σ' : state) (evs : list event),
    testMultipleUrls Example.env Example.client 2%positive
      ["https://api.cubo.com"; "https://api.cubopago.com"]%string Example.initial
    = (Returned results, σ') /\
    trace σ' = trace Example.initial ++ evs /\
    schedule evs
    = [ inl (probe_request "93aab3a749aa8da9"
               (VObject (Example.paymentData Number.hundred)) "https://api.cubo.com");
        inr 1000;
        inl (probe_request "93aab3a749aa8da9"
               (VObject (Example.paymentData Number.hundred)) "https://api.cubopago.com");
        inr 1000 ] /\
    pauses (trace σ') = pauses (trace Example.initial) ++ [1000; 1000].
Proof.
  exact (testMultipleUrls_pauses Example.env Example.client 2%positive
           (Example.paymentData Number.hundred)
           ["https://api.cubo.com"; "https://api.cubopago.com"]%string
           Example.initial eq_refl).
Defined.

Lemma testMultipleUrls_keeps_objects_witness :
  exists (results : list TestResult.t) (σ' : state),
    testMultipleUrls Example.env Example.client 1%positive
      ["https://api.cubo.com"; "https://api.cubopago.com"]%string Example.initial
    = (Returned results, σ') /\
    heap σ' !! 1%positive = Some (Example.paymentData amount_10_5) /\
    (forall l0 : loc, l0 ∈ dom (heap Example.initial) ->
       heap σ' !! l0 = heap Example.initial !! l0).
Proof.
  exact (testMultipleUrls_keeps_objects Example.env Example.client 1%positive
           (Example.paymentData amount_10_5)
           ["https://api.cubo.com"; "https://api.cubopago.com"]%string
           Example.initial eq_refl).
Defined.

Lemma testMultipleUrls_outcomes_witness :
  exists (results : list TestResult.t) (σ' : state),
    testMultipleUrls Example.env Example.client 2%positive
      ["https://api.cubo.com"; "https://api.cubopago.com"]%string Example.initial
    = (Returned results, σ') /\
    Forall (fun out : TestResult.t =>
              (exists response result : value,
                 TestResult.response out = Some response /\
                 TestResult.result out = Some result /\
                 handleResponse response = Returned result /\
                 TestResult.error out = None) \/
              (exists message : string,
                 TestResult.error out = Some message /\
                 TestResult.response out = None /\
                 TestResult.result out = None))
           results.
Proof.
  exact (testMultipleUrls_outcomes Example.env Example.client 2%positive
           (Example.paymentData Number.hundred)
           ["https://api.cubo.com"; "https://api.cubopago.com"]%string
           Example.initial eq_refl).
Defined.

Lemma testMultipleUrls_own_url_unused_witness :
  testMultipleUrls Example.env Example.client 2%positive
    ["https://api.cubo.com"; "https://api.cubopago.com"]%string Example.initial
  = testMultipleUrls Example.env Example.client3 2%positive
      ["https://api.cubo.com"; "https://api.cubopago.com"]%string Example.initial.
Proof.
  exact (testMultipleUrls_own_url_unused Example.env Example.client Example.client3
           2%positive ["https://api.cubo.com"; "https://api.cubopago.com"]%string
           Example.initial eq_refl).
Defined.


(** On the small network the default host answers [null]: the driver
    stops there. *)
Lemma runTest_stops_at_first_error_witness :
  exists σ' : state,
    runTest Example.env Example.initial
    = (Thrown (TypeError "Cannot read properties of null (reading 'error')"), σ') /\
    requests (trace σ') = requests (trace Example.initial) ++ [driver_request] /\
    pauses (trace σ') = pauses (trace Example.initial).
Proof.
  exact (runTest_stops_at_first_error Example.env Example.initial
           (TypeError "Cannot read properties of null (reading 'error')") eq_refl).
Defined.

(** [19.999] is not an amount with two decimals, but [19.99] is: the
    theorem at the binary64 nearest to 1999/100. *)
Lemma convertCentv_two_decimals_witness :
  convertCentv amount_19_99 = Number.exact false 1999 0.
Proof.
  apply (convertCentv_two_decimals 1999 5626684784446013 (- 48)).
  - split; [lia | reflexivity].
  - reflexivity.
  - vm_compute. discriminate.
Defined.

Lemma convertCentv_not_an_amount_witness :
  convertCentv S754_nan = S754_nan.
Proof.
  exact (convertCentv_not_an_amount S754_nan (or_introl eq_refl)).
Defined.

Lemma pay_sends_cents_witness :
  exists (v : outcome value) (σ' : state),
    pay Offline.env Example.client (inl 2%positive) Offline.initial = (v, σ') /\
    requests (trace σ') = requests (trace Offline.initial)
      ++ [pay_request Example.client
            (VObject (<["amount" := VNumber (Number.exact false 1999 0)]>
                        (Example.paymentData amount_19_99)))].
Proof.
  apply (pay_sends_cents Offline.env Example.client (inl 2%positive)
           (Example.paymentData amount_19_99) Offline.initial
           1999 5626684784446013 (- 48)).
  - reflexivity.
  - reflexivity.
  - split; [lia | reflexivity].
  - intros [q Hq]. lia.
  - reflexivity.
  - vm_compute. discriminate.
Defined.
